(** * mcp-sourcekit-lsp: the bridge between tool calls and SourceKit-LSP

    A shallow embedding of the TypeScript sources
    - [lsp-client.ts]    (class [SourceKitLSPClient]),
    - [tools/*.ts]       (the five [create...Tool(...).execute] operations),
    - [tool-definitions.ts] and [server.ts] (schemas, validation, dispatch),
    followed by the properties the specification states about them.

    Conventions of the embedding.
    - JavaScript numbers that carry line numbers, columns and versions are
      integers ([Z]); on safe integers [+ 1] and [- 1] are exact.
    - An [async] function is a state transformer on the client object that
      ends in a [Completion]: it returns, it throws, or it stays suspended on
      an [await] that never settles.  Operations of the client and of the
      tools run one after the other; only the message connection is looked
      at with several requests in flight.
    - [Map]s keyed by strings are [gmap string _]. *)

From Stdlib Require Import ZArith.
From stdpp Require Import base option list strings gmap pretty.

Local Open Scope Z_scope.

(** ** Thrown values and completions *)

(** What a [catch (error)] clause can receive.  [ErrnoException] is the
    error of [fs.readFile] (it has a string [code]); [ResponseError] is an
    error reply of the subprocess; [NotReadyError] and
    [ConnectionClosedError] are the connection's own; [NonError] is any
    thrown value that is not an [Error] instance, with its [String(...)]
    rendering. *)
Inductive Thrown : Type :=
| ErrnoException (code message : string)
| Error (message : string)
| ResponseError (code : Z) (message : string)
| NotReadyError
| ConnectionClosedError
| NonError (shown : string).

(** The texts that [vscode-jsonrpc] gives these two errors; no property
    depends on their wording. *)
Definition NotReady_message : string := "Call listen() first.".
Definition ConnectionClosed_message : string := "Connection is disposed.".

(** [error instanceof Error ? error.message : String(error)] *)
Definition errorMessage (e : Thrown) : string :=
  match e with
  | ErrnoException _ m => m
  | Error m => m
  | ResponseError _ m => m
  | NotReadyError => NotReady_message
  | ConnectionClosedError => ConnectionClosed_message
  | NonError shown => shown
  end.

(** [(error as NodeJS.ErrnoException).code === 'ENOENT'] : only a string
    code can be strictly equal to ['ENOENT']. *)
Definition isENOENT (e : Thrown) : bool :=
  match e with
  | ErrnoException code _ => bool_decide (code = "ENOENT")
  | _ => false
  end.

Inductive Completion (A : Type) : Type :=
| Return (a : A)
| Throw (e : Thrown)
| Pending.
Arguments Return {A} a.
Arguments Throw {A} e.
Arguments Pending {A}.

(** ** Messages on the wire *)

(** The parameters of every message the client writes, one constructor per
    call site of [sendNotification] / [sendRequest] in [lsp-client.ts]. *)
Inductive Outgoing : Type :=
| Initialize (rootUri : string)
| Initialized
| DidOpen (uri languageId : string) (version : Z) (text : string)
| DidChange (uri : string) (version : Z) (text : string)
| DidClose (uri : string)
| HoverParams (uri : string) (line character : Z)
| DefinitionParams (uri : string) (line character : Z)
| ReferenceParams (uri : string) (line character : Z) (includeDeclaration : bool)
| WorkspaceSymbolParams (query : string)
| Shutdown
| Exit.

Definition method (p : Outgoing) : string :=
  match p with
  | Initialize _ => "initialize"
  | Initialized => "initialized"
  | DidOpen _ _ _ _ => "textDocument/didOpen"
  | DidChange _ _ _ => "textDocument/didChange"
  | DidClose _ => "textDocument/didClose"
  | HoverParams _ _ _ => "textDocument/hover"
  | DefinitionParams _ _ _ => "textDocument/definition"
  | ReferenceParams _ _ _ _ => "textDocument/references"
  | WorkspaceSymbolParams _ => "workspace/symbol"
  | Shutdown => "shutdown"
  | Exit => "exit"
  end.

Inductive Frame : Type :=
| Notification (p : Outgoing)
| Request (id : N) (p : Outgoing).

(** ** The message connection *)

Module Transport.

(** The message connection that [createMessageConnection] of
    [vscode-jsonrpc] returns.  Its source is not part of the repository:
    [lsp-client.ts] only calls it.  Every definition of this module is
    therefore modelled from the specification (sections 4.2, 4.3 and 5);
    the repository's engineering plan sketches the same table
    ([pendingRequests.set(id, { resolve, reject })] under a counter
    [requestId]). *)

(** Modelled from the spec: the lifecycle of the message connection, which
    is missing from the sources.  It follows the three calls the client
    makes, [createMessageConnection], [listen()] and [dispose()]; traffic
    is permitted in [Listening] only (section 4.3). *)
Inductive Lifecycle : Type := Created | Listening | Disposed.

Section Correlation.

(** [K] names the continuations that wait for replies. *)
Context {K : Type}.

(** Modelled from the spec: the state of the missing message connection
    (section 4.2): the next identifier to hand out, the outstanding request
    identifiers with their continuations, and the frames written so far. *)
Record t : Type := Build {
  state : Lifecycle;
  nextId : N;
  pending : gmap N K;
  sent : list Frame
}.

(** Modelled from the spec: [createMessageConnection(...)], missing from
    the sources: nothing sent, nothing pending. *)
Definition create : t :=
  {| state := Created; nextId := 0%N; pending := ∅; sent := [] |}.

(** Modelled from the spec: [connection.listen()], missing from the
    sources. *)
Definition listen (c : t) : t :=
  match state c with
  | Created =>
      {| state := Listening; nextId := nextId c;
         pending := pending c; sent := sent c |}
  | _ => c
  end.

(** Modelled from the spec: the failure of an operation on the missing
    connection outside [Listening] (section 4.3): [NotReadyError] before,
    [ConnectionClosedError] after. *)
Definition guard (c : t) : option Thrown :=
  match state c with
  | Created => Some NotReadyError
  | Listening => None
  | Disposed => Some ConnectionClosedError
  end.

(** Modelled from the spec: [connection.sendNotification], missing from the
    sources (section 4.2): fire-and-forget, no identifier. *)
Definition sendNotification (p : Outgoing) (c : t) : Thrown + t :=
  match guard c with
  | Some e => inl e
  | None =>
      inr {| state := state c; nextId := nextId c; pending := pending c;
             sent := sent c ++ [Notification p] |}
  end.

(** Modelled from the spec: [connection.sendRequest], missing from the
    sources (section 4.2): a fresh identifier is allocated, the framed
    request is written and the continuation is registered.  The identifier
    comes back with the connection: the caller is suspended under it. *)
Definition sendRequest (k : K) (p : Outgoing) (c : t) : Thrown + (N * t) :=
  match guard c with
  | Some e => inl e
  | None =>
      let id := nextId c in
      inr (id, {| state := state c; nextId := N.succ id;
                  pending := <[id := k]> (pending c);
                  sent := sent c ++ [Request id p] |})
  end.

(** Modelled from the spec: the missing connection's handling of an inbound
    reply frame (section 4.2): the continuation registered under [id], when
    there is one, is handed the payload and leaves the table. *)
Definition deliver {P : Type} (id : N) (payload : P) (c : t)
    : option (K * P) * t :=
  match pending c !! id with
  | Some k =>
      (Some (k, payload),
       {| state := state c; nextId := nextId c;
          pending := delete id (pending c); sent := sent c |})
  | None => (None, c)
  end.

(** Modelled from the spec: [connection.dispose()], missing from the
    sources: no further traffic; the waiting continuations leave the table
    (section 5: they fail with [ConnectionClosedError]). *)
Definition dispose (c : t) : t :=
  {| state := Disposed; nextId := nextId c; pending := ∅; sent := sent c |}.

(** Issue a batch of requests, in order; the identifiers come back in the
    same order. *)
Fixpoint sendAll (calls : list (K * Outgoing)) (c : t) : Thrown + (list N * t) :=
  match calls with
  | [] => inr ([], c)
  | (k, p) :: rest =>
      match sendRequest k p c with
      | inl e => inl e
      | inr (id, c1) =>
          match sendAll rest c1 with
          | inl e => inl e
          | inr (ids, c2) => inr (id :: ids, c2)
          end
      end
  end.

(** Drain a sequence of reply frames, collecting who was resumed with
    what, in arrival order. *)
Fixpoint deliverAll {P : Type} (replies : list (N * P)) (c : t)
    : list (K * P) * t :=
  match replies with
  | [] => ([], c)
  | (id, payload) :: rest =>
      let (r, c1) := deliver id payload c in
      let (rs, c2) := deliverAll rest c1 in
      (match r with Some kp => kp :: rs | None => rs end, c2)
  end.

End Correlation.

Arguments t K : clear implicits.

End Transport.

(** ** Protocol data ([vscode-languageserver-types]) *)

Module Lsp.

Record Position : Type := { line : Z; character : Z }.
Record Range : Type := { start : Position; end_ : Position }.
Record Location : Type := { uri : string; range : Range }.

(** [MarkedString = string | { language, value }] *)
Inductive MarkedString : Type :=
| MarkedText (s : string)
| MarkedCode (language value : string).

(** [Hover.contents : MarkupContent | MarkedString | MarkedString[]] *)
Inductive HoverContents : Type :=
| Plain (s : string)
| Markup (kind value : string)
| Code (language value : string)
| Fragments (items : list MarkedString).

Record Hover : Type := {
  contents : option HoverContents;
  hoverRange : option Range
}.

Record Diagnostic : Type := {
  diagRange : Range;
  severity : option Z;
  message : string;
  source : option string
}.

Record SymbolInformation : Type := {
  name : string;
  kind : Z;
  location : Location;
  containerName : option string
}.

(** [Location | Location[]] *)
Inductive Definition_ : Type :=
| One (l : Location)
| Many (ls : list Location).

End Lsp.

(** Inbound notifications, as the message loop hands them to
    [onNotification] handlers. *)
Inductive Inbound : Type :=
| PublishDiagnostics (uri : string) (diagnostics : list Lsp.Diagnostic)
| OtherNotification (method : string).

(** ** The world outside the bridge *)

(** The file system, the URI library and the subprocess's answers.  An
    answer [Throw e] is an error reply; [Pending] is a subprocess that never
    answers.  [arrivals] are the notifications the subprocess pushes before
    the diagnostics operation reads the cache. *)
Record Env : Type := {
  readFile : string → Completion string;
  fileUri : string → string;
  fsPath : string → Completion string;
  initializeReply : string → Completion unit;
  hoverReply : string → Z → Z → Completion (option Lsp.Hover);
  definitionReply : string → Z → Z → Completion (option Lsp.Definition_);
  referencesReply : string → Z → Z → bool → Completion (option (list Lsp.Location));
  symbolsReply : string → Completion (option (list Lsp.SymbolInformation));
  shutdownReply : Completion unit;
  arrivals : list Inbound
}.

(** ** [lsp-client.ts] *)

Record FileInfo : Type := { version : Z; content : string }.

Record ChildProcess : Type := {
  running : bool;
  killed : bool;
  exitCode : option Z
}.

(** The fields of [class SourceKitLSPClient]; [spawned] counts the calls of
    [spawn] and [console] collects the lines written by [console.error]. *)
Record Client : Type := {
  connection : Transport.t unit;
  process : option ChildProcess;
  diagnosticsCache : gmap string (list Lsp.Diagnostic);
  openFiles : gmap string FileInfo;
  spawned : nat;
  console : list string
}.

Definition newClient : Client :=
  {| connection := Transport.create; process := None;
     diagnosticsCache := ∅; openFiles := ∅; spawned := 0; console := [] |}.

Definition set_connection (c : Transport.t unit) (s : Client) : Client :=
  {| connection := c; process := process s;
     diagnosticsCache := diagnosticsCache s; openFiles := openFiles s;
     spawned := spawned s; console := console s |}.

Definition set_process (p : option ChildProcess) (s : Client) : Client :=
  {| connection := connection s; process := p;
     diagnosticsCache := diagnosticsCache s; openFiles := openFiles s;
     spawned := spawned s; console := console s |}.

Definition set_diagnosticsCache (d : gmap string (list Lsp.Diagnostic))
    (s : Client) : Client :=
  {| connection := connection s; process := process s;
     diagnosticsCache := d; openFiles := openFiles s;
     spawned := spawned s; console := console s |}.

Definition set_openFiles (f : gmap string FileInfo) (s : Client) : Client :=
  {| connection := connection s; process := process s;
     diagnosticsCache := diagnosticsCache s; openFiles := f;
     spawned := spawned s; console := console s |}.

(** *** Asynchronous operations on the client *)

Definition M (A : Type) : Type := Client → Completion A * Client.

Definition ret {A} (a : A) : M A := λ s, (Return a, s).
Definition throw {A} (e : Thrown) : M A := λ s, (Throw e, s).

Definition bind {A B} (m : M A) (k : A → M B) : M B :=
  λ s, match m s with
       | (Return a, s1) => k a s1
       | (Throw e, s1) => (Throw e, s1)
       | (Pending, s1) => (Pending, s1)
       end.

(** [try { m } catch (error) { h error }] *)
Definition try_catch {A} (m : M A) (h : Thrown → M A) : M A :=
  λ s, match m s with
       | (Throw e, s1) => h e s1
       | r => r
       end.

(** [await] of something that does not touch the client. *)
Definition await {A} (r : Completion A) : M A := λ s, (r, s).

Notation "'let*' x := m 'in' k" := (bind m (λ x, k))
  (at level 10, x pattern, m at level 100, k at level 200).
Notation "m ;; k" := (bind m (λ _, k))
  (at level 100, k at level 200, right associativity).

(** [await this.connection.sendNotification(...)] *)
Definition notify (p : Outgoing) : M unit :=
  λ s, match Transport.sendNotification p (connection s) with
       | inl e => (Throw e, s)
       | inr c => (Return (), set_connection c s)
       end.

(** [await this.connection.sendRequest(...)]: the request is written and the
    caller waits under its identifier; when the subprocess answers, the
    reply frame resumes it. *)
Definition request {A} (p : Outgoing) (answer : Completion A) : M A :=
  λ s, match Transport.sendRequest () p (connection s) with
       | inl e => (Throw e, s)
       | inr (id, c) =>
           match answer with
           | Pending => (Pending, set_connection c s)
           | _ => (answer, set_connection (Transport.deliver id answer c).2 s)
           end
       end.

(** The handler registered for ['textDocument/publishDiagnostics']:
    [this.diagnosticsCache.set(params.uri, params.diagnostics)]. *)
Definition onNotification (n : Inbound) (s : Client) : Client :=
  match n with
  | PublishDiagnostics uri diagnostics =>
      set_diagnosticsCache (<[uri := diagnostics]> (diagnosticsCache s)) s
  | OtherNotification _ => s
  end.

(** The message loop draining a sequence of inbound notifications. *)
Definition receive (ns : list Inbound) (s : Client) : Client :=
  foldl (λ s n, onNotification n s) s ns.

(** The observer registered with [this.process.on('exit', ...)]: one line on
    the console, nothing else. *)
Definition onExit (code : Z) (s : Client) : Client :=
  {| connection := connection s; process := process s;
     diagnosticsCache := diagnosticsCache s; openFiles := openFiles s;
     spawned := spawned s;
     console := console s ++ ["SourceKit-LSP exited with code " +:+ pretty code] |}.

(** The subprocess ends with [code]: the operating system marks the child
    as gone, then the ['exit'] observer runs.  What the message connection
    does by itself when the streams of the child end is decided inside
    [vscode-jsonrpc]; the client's code does not take part in it and the
    embedding leaves it out. *)
Definition processExits (code : Z) (s : Client) : Client :=
  onExit code
    (set_process
       (match process s with
        | Some p => Some {| running := false; killed := killed p;
                            exitCode := Some code |}
        | None => None
        end) s).

(** [this.process.kill()] *)
Definition kill : M unit :=
  λ s, (Return (),
        set_process
          (match process s with
           | Some p => Some {| running := false; killed := true;
                               exitCode := exitCode p |}
           | None => None
           end) s).

Definition spawn : M unit :=
  λ s, (Return (),
        {| connection := connection s;
           process := Some {| running := true; killed := false; exitCode := None |};
           diagnosticsCache := diagnosticsCache s; openFiles := openFiles s;
           spawned := S (spawned s); console := console s |}).

Definition connect (env : Env) (workspaceRoot : string) : M unit :=
  spawn ;;
  (λ s, (Return (), set_connection (Transport.listen Transport.create) s)) ;;
  let* initResult := request (Initialize (fileUri env workspaceRoot))
                       (initializeReply env workspaceRoot) in
  notify Initialized ;;
  ret initResult.

Definition updateFile (uri content : string) (version : Z) : M unit :=
  notify (DidChange uri version content).

Definition openFile (uri content : string) : M unit :=
  λ s, match openFiles s !! uri with
       | Some {| version := existingVersion; content := existingContent |} =>
           if bool_decide (existingContent = content) then (Return (), s)
           else
             let newVersion := existingVersion + 1 in
             (updateFile uri content newVersion ;;
              (λ s, (Return (),
                     set_openFiles
                       (<[uri := {| version := newVersion; content := content |}]>
                          (openFiles s)) s))) s
       | None =>
           (notify (DidOpen uri "swift" 1 content) ;;
            (λ s, (Return (),
                   set_openFiles
                     (<[uri := {| version := 1; content := content |}]>
                        (openFiles s)) s))) s
       end.

Definition closeFile (uri : string) : M unit :=
  notify (DidClose uri) ;;
  (λ s, (Return (), set_openFiles (delete uri (openFiles s)) s)).

Definition getFileVersion (uri : string) (s : Client) : option Z :=
  match openFiles s !! uri with
  | Some fileInfo => Some (version fileInfo)
  | None => None
  end.

Definition hover (env : Env) (uri : string) (line character : Z)
    : M (option Lsp.Hover) :=
  request (HoverParams uri line character) (hoverReply env uri line character).

Definition definition (env : Env) (uri : string) (line character : Z)
    : M (option Lsp.Definition_) :=
  request (DefinitionParams uri line character)
    (definitionReply env uri line character).

Definition references (env : Env) (uri : string) (line character : Z)
    (includeDeclaration : bool) : M (option (list Lsp.Location)) :=
  request (ReferenceParams uri line character includeDeclaration)
    (referencesReply env uri line character includeDeclaration).

Definition workspaceSymbols (env : Env) (query : string)
    : M (option (list Lsp.SymbolInformation)) :=
  request (WorkspaceSymbolParams query) (symbolsReply env query).

(** [this.diagnosticsCache.get(uri) || []]: an array, even an empty one, is
    truthy, so only a missing entry falls back to [[]]. *)
Definition getDiagnostics (uri : string) (s : Client) : list Lsp.Diagnostic :=
  default [] (diagnosticsCache s !! uri).

Definition shutdown (env : Env) : M unit :=
  request Shutdown (shutdownReply env) ;;
  notify Exit ;;
  (λ s, (Return (), set_connection (Transport.dispose (connection s)) s)) ;;
  kill.

(** ** [tools/*.ts] *)

(** [{ content: [{ type: 'text', text }] }] *)
Inductive CallToolResult : Type := TextContent (text : string).

(** ['\n'] *)
Definition newline : string := String (Ascii.ascii_of_nat 10) "".

(** [a || b] on strings: the empty string is falsy. *)
Definition or_else (a b : string) : string :=
  if bool_decide (a = "") then b else a.

(** [n === 1 ? '' : 's'] *)
Definition plural (n : nat) : string :=
  if bool_decide (n = 1%nat) then "" else "s".

(** [xs.map(x => `- ${x}`).join('\n')] *)
Definition bullets (xs : list string) : string :=
  String.concat (newline) (map (λ x, "- " +:+ x) xs).

(** A synchronous [Array.prototype.map] whose callback may throw: the first
    throw ends the loop. *)
Fixpoint mapC {A B} (f : A → Completion B) (xs : list A) : Completion (list B) :=
  match xs with
  | [] => Return []
  | x :: rest =>
      match f x with
      | Return y =>
          match mapC f rest with
          | Return ys => Return (y :: ys)
          | Throw e => Throw e
          | Pending => Pending
          end
      | Throw e => Throw e
      | Pending => Pending
      end
  end.

(** The block every file-based tool starts with:
    read the file, open it in the subprocess, and turn [ENOENT] into
    [File not found]. *)
Definition ensureOpen (env : Env) (file uri : string) : M unit :=
  try_catch
    (let* content := await (readFile env file) in
     openFile uri content)
    (λ error,
       if isENOENT error then throw (Error ("File not found: " +:+ file))
       else throw error).

(** [`${filePath}:${startLine}:${startChar}`] of [definition.ts] and
    [references.ts]. *)
Definition formatLocation (env : Env) (location : Lsp.Location)
    : Completion string :=
  match fsPath env (Lsp.uri location) with
  | Return filePath =>
      let startLine := Lsp.line (Lsp.start (Lsp.range location)) + 1 in
      let startChar := Lsp.character (Lsp.start (Lsp.range location)) + 1 in
      Return (filePath +:+ ":" +:+ pretty startLine +:+ ":" +:+ pretty startChar)
  | Throw e => Throw e
  | Pending => Pending
  end.

(** *** [hover.ts] *)

Record HoverArgs : Type := {
  hover_file : string; hover_line : Z; hover_column : Z
}.

(** [!result || !result.contents] *)
Definition noHover (result : option Lsp.Hover) : bool :=
  match result with
  | None => true
  | Some h =>
      match Lsp.contents h with
      | None => true
      | Some (Lsp.Plain s) => bool_decide (s = "")
      | Some _ => false
      end
  end.

Definition markedValue (m : Lsp.MarkedString) : string :=
  match m with
  | Lsp.MarkedText s => s
  | Lsp.MarkedCode _ value => value
  end.

(** The [if / else if] chain over the shape of [result.contents];
    [{ language, value }] outside an array matches no branch and leaves
    [text] empty. *)
Definition hoverText (c : Lsp.HoverContents) : string :=
  match c with
  | Lsp.Plain s => s
  | Lsp.Markup _ value => value
  | Lsp.Code _ _ => ""
  | Lsp.Fragments items =>
      String.concat (newline) (map markedValue items)
  end.

Definition renderHover (result : option Lsp.Hover) : string :=
  if noHover result then "No type information available at this position"
  else
    match result with
    | Some {| Lsp.contents := Some c |} =>
        or_else (hoverText c) "No type information available"
    | _ => "No type information available at this position"
    end.

Definition createHoverTool (env : Env) (args : HoverArgs) : M CallToolResult :=
  let uri := fileUri env (hover_file args) in
  let lspLine := hover_line args - 1 in
  let lspColumn := hover_column args - 1 in
  try_catch
    (ensureOpen env (hover_file args) uri ;;
     let* result := hover env uri lspLine lspColumn in
     ret (TextContent (renderHover result)))
    (λ error,
       ret (TextContent ("Failed to get hover information: " +:+ errorMessage error))).

(** *** [definition.ts] *)

Record DefinitionArgs : Type := {
  definition_file : string; definition_line : Z; definition_column : Z
}.

(** [Array.isArray(result) ? result : [result]] *)
Definition locationsOf (d : Lsp.Definition_) : list Lsp.Location :=
  match d with
  | Lsp.One l => [l]
  | Lsp.Many ls => ls
  end.

Definition renderDefinition (env : Env) (result : option Lsp.Definition_)
    : Completion string :=
  match result with
  | None => Return "No definition found at this position"
  | Some d =>
      match locationsOf d with
      | [] => Return "No definition found at this position"
      | locations =>
          match mapC (formatLocation env) locations with
          | Return [d0] => Return ("Definition found at: " +:+ d0)
          | Return definitions =>
              Return ("Multiple definitions found:" +:+ newline
                      +:+ bullets definitions)
          | Throw e => Throw e
          | Pending => Pending
          end
      end
  end.

Definition createDefinitionTool (env : Env) (args : DefinitionArgs)
    : M CallToolResult :=
  let uri := fileUri env (definition_file args) in
  let lspLine := definition_line args - 1 in
  let lspColumn := definition_column args - 1 in
  try_catch
    (ensureOpen env (definition_file args) uri ;;
     let* result := definition env uri lspLine lspColumn in
     let* text := await (renderDefinition env result) in
     ret (TextContent text))
    (λ error,
       ret (TextContent ("Failed to find definition: " +:+ errorMessage error))).

(** *** [references.ts] *)

Record ReferencesArgs : Type := {
  references_file : string; references_line : Z; references_column : Z;
  references_includeDeclaration : option bool
}.

Definition renderReferences (env : Env) (result : option (list Lsp.Location))
    : Completion string :=
  match result with
  | None | Some [] => Return "No references found for this symbol"
  | Some locations =>
      match mapC (formatLocation env) locations with
      | Return refs =>
          Return ("Found " +:+ pretty (length refs) +:+ " reference"
                  +:+ plural (length refs) +:+ ":" +:+ newline
                  +:+ bullets refs)
      | Throw e => Throw e
      | Pending => Pending
      end
  end.

Definition createReferencesTool (env : Env) (args : ReferencesArgs)
    : M CallToolResult :=
  let includeDeclaration := default true (references_includeDeclaration args) in
  let uri := fileUri env (references_file args) in
  let lspLine := references_line args - 1 in
  let lspColumn := references_column args - 1 in
  try_catch
    (ensureOpen env (references_file args) uri ;;
     let* result := references env uri lspLine lspColumn includeDeclaration in
     let* text := await (renderReferences env result) in
     ret (TextContent text))
    (λ error,
       ret (TextContent ("Failed to find references: " +:+ errorMessage error))).

(** *** [symbols.ts] *)

Record SymbolsArgs : Type := { symbols_query : string }.

(** The double quote of [`... "${query}"`]. *)
Definition dquote : string := String (Ascii.ascii_of_nat 34) "".

(** [kindMap[kind] || 'Unknown'], with the values of [SymbolKind]. *)
Definition symbolKindToString (kind : Z) : string :=
  match kind with
  | 1 => "File" | 2 => "Module" | 3 => "Namespace" | 4 => "Package"
  | 5 => "Class" | 6 => "Method" | 7 => "Property" | 8 => "Field"
  | 9 => "Constructor" | 10 => "Enum" | 11 => "Interface" | 12 => "Function"
  | 13 => "Variable" | 14 => "Constant" | 15 => "String" | 16 => "Number"
  | 17 => "Boolean" | 18 => "Array" | 19 => "Object" | 20 => "Key"
  | 21 => "Null" | 22 => "EnumMember" | 23 => "Struct" | 24 => "Event"
  | 25 => "Operator" | 26 => "TypeParameter"
  | _ => "Unknown"
  end.

Definition formatSymbol (env : Env) (symbol : Lsp.SymbolInformation)
    : Completion string :=
  match fsPath env (Lsp.uri (Lsp.location symbol)) with
  | Return filePath =>
      let line := Lsp.line (Lsp.start (Lsp.range (Lsp.location symbol))) + 1 in
      let kind := symbolKindToString (Lsp.kind symbol) in
      let text := Lsp.name symbol +:+ " (" +:+ kind +:+ ")" in
      let text :=
        match Lsp.containerName symbol with
        | Some container =>
            if bool_decide (container = "") then text
            else text +:+ " in " +:+ container
        | None => text
        end in
      Return (text +:+ " - " +:+ filePath +:+ ":" +:+ pretty line)
  | Throw e => Throw e
  | Pending => Pending
  end.

Definition renderSymbols (env : Env) (query : string)
    (result : option (list Lsp.SymbolInformation)) : Completion string :=
  match result with
  | None | Some [] =>
      Return ("No symbols found matching " +:+ dquote +:+ query +:+ dquote)
  | Some found =>
      match mapC (formatSymbol env) found with
      | Return symbols =>
          Return ("Found " +:+ pretty (length symbols) +:+ " symbol"
                  +:+ plural (length symbols) +:+ " matching "
                  +:+ dquote +:+ query +:+ dquote +:+ ":" +:+ newline
                  +:+ bullets symbols)
      | Throw e => Throw e
      | Pending => Pending
      end
  end.

Definition createSymbolsTool (env : Env) (args : SymbolsArgs)
    : M CallToolResult :=
  try_catch
    (let* result := workspaceSymbols env (symbols_query args) in
     let* text := await (renderSymbols env (symbols_query args) result) in
     ret (TextContent text))
    (λ error,
       ret (TextContent ("Failed to search symbols: " +:+ errorMessage error))).

(** *** [diagnostics.ts] *)

Record DiagnosticsArgs : Type := { diagnostics_file : string }.

(** [DiagnosticSeverity]: Error = 1, Warning = 2, Information = 3, Hint = 4. *)
Definition severityToString (severity : Z) : string :=
  match severity with
  | 1 => "Error"
  | 2 => "Warning"
  | 3 => "Info"
  | 4 => "Hint"
  | _ => "Unknown"
  end.

(** [diagnostic.severity || DiagnosticSeverity.Error] *)
Definition severityOrError (d : Lsp.Diagnostic) : Z :=
  match Lsp.severity d with
  | Some 0 | None => 1
  | Some sev => sev
  end.

Definition formatDiagnostic (diagnostic : Lsp.Diagnostic) : string :=
  let line := Lsp.line (Lsp.start (Lsp.diagRange diagnostic)) + 1 in
  let column := Lsp.character (Lsp.start (Lsp.diagRange diagnostic)) + 1 in
  let severity := severityToString (severityOrError diagnostic) in
  let message := Lsp.message diagnostic in
  let source :=
    match Lsp.source diagnostic with
    | Some src => if bool_decide (src = "") then "" else " [" +:+ src +:+ "]"
    | None => ""
    end in
  severity +:+ " at " +:+ pretty line +:+ ":" +:+ pretty column +:+ ": "
  +:+ message +:+ source.

Definition hasSeverity (sev : Z) (d : Lsp.Diagnostic) : bool :=
  bool_decide (Lsp.severity d = Some sev).

Definition diagnosticsSummary (diagnostics : list Lsp.Diagnostic) : string :=
  let errors := filter (λ d, hasSeverity 1 d = true) diagnostics in
  let warnings := filter (λ d, hasSeverity 2 d = true) diagnostics in
  let others :=
    filter (λ d, hasSeverity 1 d = false ∧ hasSeverity 2 d = false) diagnostics in
  let summary := "" in
  let summary :=
    if bool_decide (0 < length errors)%nat
    then summary +:+ pretty (length errors) +:+ " error" +:+ plural (length errors)
    else summary in
  let summary :=
    if bool_decide (0 < length warnings)%nat
    then (if bool_decide (summary = "") then summary else summary +:+ ", ")
         +:+ pretty (length warnings) +:+ " warning" +:+ plural (length warnings)
    else summary in
  let summary :=
    if bool_decide (0 < length others)%nat
    then (if bool_decide (summary = "") then summary else summary +:+ ", ")
         +:+ pretty (length others) +:+ " other" +:+ plural (length others)
    else summary in
  summary.

Definition renderDiagnostics (diagnostics : list Lsp.Diagnostic) : string :=
  match diagnostics with
  | [] => "No diagnostics (errors or warnings) found for this file"
  | _ =>
      let diagnosticLines := map formatDiagnostic diagnostics in
      "Found " +:+ pretty (length diagnostics) +:+ " diagnostic"
      +:+ plural (length diagnostics) +:+ " (" +:+ diagnosticsSummary diagnostics
      +:+ "):" +:+ newline +:+ bullets diagnosticLines
  end.

(** [await new Promise(resolve => setTimeout(resolve, 100))]: while the
    operation sleeps, the message loop handles what the subprocess pushed. *)
Definition settle (env : Env) : M unit :=
  λ s, (Return (), receive (arrivals env) s).

Definition createDiagnosticsTool (env : Env) (args : DiagnosticsArgs)
    : M CallToolResult :=
  let uri := fileUri env (diagnostics_file args) in
  try_catch
    (ensureOpen env (diagnostics_file args) uri ;;
     settle env ;;
     let* diagnostics := (λ s, (Return (getDiagnostics uri s), s)) in
     ret (TextContent (renderDiagnostics diagnostics)))
    (λ error,
       ret (TextContent ("Failed to get diagnostics: " +:+ errorMessage error))).

(** ** [tool-definitions.ts] *)

(** A JSON value, as a tool call carries it. *)
#[local] Unset Elimination Schemes.
Inductive json : Type :=
| JNull
| JBool (b : bool)
| JNumber (n : Z)
| JString (s : string)
| JArray (items : list json)
| JObject (fields : list (string * json)).
#[local] Set Elimination Schemes.

Inductive SchemaType : Type := TString | TNumber | TBoolean.

(** One entry of [properties]; [minimum] and [minLength] are absent from the
    public schemas and added for validation only. *)
Record PropertySchema : Type := {
  prop_type : SchemaType;
  prop_description : string;
  prop_default : option json;
  minimum : option Z;
  minLength : option nat
}.

(** [{ type: 'object', properties, required }], with the
    [additionalProperties] that validation sets. *)
Record InputSchema : Type := {
  properties : list (string * PropertySchema);
  required : list string;
  additionalProperties : option bool
}.

Record ToolDefinition : Type := {
  tool_name : string;
  tool_description : string;
  inputSchema : InputSchema
}.

Definition prop (t : SchemaType) (description : string) : PropertySchema :=
  {| prop_type := t; prop_description := description; prop_default := None;
     minimum := None; minLength := None |}.

Definition positionSchema : InputSchema :=
  {| properties :=
       [("file", prop TString "Path to Swift file");
        ("line", prop TNumber "Line number (1-based)");
        ("column", prop TNumber "Column number (1-based)")];
     required := ["file"; "line"; "column"];
     additionalProperties := None |}.

Definition TOOL_DEFINITIONS : list ToolDefinition :=
  [ {| tool_name := "swift-hover";
       tool_description :=
         "Get type information and documentation for a symbol at a specific position";
       inputSchema := positionSchema |};
    {| tool_name := "swift-definition";
       tool_description := "Find the definition of a symbol at a specific position";
       inputSchema := positionSchema |};
    {| tool_name := "swift-references";
       tool_description := "Find all references to a symbol at a specific position";
       inputSchema :=
         {| properties :=
              [("file", prop TString "Path to Swift file");
               ("line", prop TNumber "Line number (1-based)");
               ("column", prop TNumber "Column number (1-based)");
               ("includeDeclaration",
                {| prop_type := TBoolean;
                   prop_description := "Include declaration in results";
                   prop_default := Some (JBool true);
                   minimum := None; minLength := None |})];
            required := ["file"; "line"; "column"];
            additionalProperties := None |} |};
    {| tool_name := "swift-symbols";
       tool_description := "Search for symbols in the workspace";
       inputSchema :=
         {| properties := [("query", prop TString "Search query for symbol names")];
            required := ["query"];
            additionalProperties := None |} |};
    {| tool_name := "swift-diagnostics";
       tool_description :=
         "Get compiler diagnostics (errors and warnings) for a file";
       inputSchema :=
         {| properties := [("file", prop TString "Path to Swift file")];
            required := ["file"];
            additionalProperties := None |} |} ].

(** ** [server.ts] *)

Module Ajv.

(** The validator that [ajv.compile(schema)] returns.  Ajv is a third-party
    package, absent from the sources; the embedding gives the keywords that
    occur in the validation schemas ([type], [required],
    [additionalProperties], [properties], [minimum], [minLength]) their JSON
    Schema meaning, and reports, as Ajv does without [allErrors], the first
    violation only. *)

(** One entry of [validate.errors]. *)
Record ErrorObject : Type := { instancePath : string; message : string }.

Definition typeName (t : SchemaType) : string :=
  match t with
  | TString => "string"
  | TNumber => "number"
  | TBoolean => "boolean"
  end.

Definition hasType (t : SchemaType) (v : json) : bool :=
  match t, v with
  | TString, JString _ => true
  | TNumber, JNumber _ => true
  | TBoolean, JBool _ => true
  | _, _ => false
  end.

Definition checkValue (key : string) (ps : PropertySchema) (v : json)
    : list ErrorObject :=
  let path := "/" +:+ key in
  if negb (hasType (prop_type ps) v)
  then [ {| instancePath := path;
            message := "must be " +:+ typeName (prop_type ps) |} ]
  else
    match v with
    | JNumber n =>
        match minimum ps with
        | Some m =>
            if bool_decide (n < m)
            then [ {| instancePath := path;
                      message := "must be >= " +:+ pretty m |} ]
            else []
        | None => []
        end
    | JString s =>
        match minLength ps with
        | Some m =>
            if bool_decide (String.length s < m)%nat
            then [ {| instancePath := path;
                      message := "must NOT have fewer than " +:+ pretty m
                                 +:+ " characters" |} ]
            else []
        | None => []
        end
    | _ => []
    end.

Definition declared (schema : InputSchema) (key : string) : bool :=
  bool_decide (key ∈ (properties schema).*1).

Definition missingRequired (schema : InputSchema) (data : gmap string json)
    : list ErrorObject :=
  flat_map
    (λ key,
       match data !! key with
       | Some _ => []
       | None => [ {| instancePath := "";
                      message := "must have required property '" +:+ key +:+ "'" |} ]
       end)
    (required schema).

Definition additional (schema : InputSchema) (data : gmap string json)
    : list ErrorObject :=
  match additionalProperties schema with
  | Some false =>
      flat_map
        (λ kv : string * json,
           if declared schema kv.1 then []
           else [ {| instancePath := "";
                     message := "must NOT have additional properties" |} ])
        (map_to_list data)
  | _ => []
  end.

Definition invalidProperties (schema : InputSchema) (data : gmap string json)
    : list ErrorObject :=
  flat_map
    (λ entry : string * PropertySchema,
       match data !! entry.1 with
       | Some v => checkValue entry.1 entry.2 v
       | None => []
       end)
    (properties schema).

Definition violations (schema : InputSchema) (data : gmap string json)
    : list ErrorObject :=
  missingRequired schema data ++ additional schema data
  ++ invalidProperties schema data.

(** [validate(args)] is [true] exactly when [errors] is empty. *)
Definition errors (schema : InputSchema) (data : gmap string json)
    : list ErrorObject :=
  take 1 (violations schema data).

End Ajv.

(** [if (props.line) props.line.minimum = 1], and likewise for [column] and
    [query]. *)
Definition constrainProperty (entry : string * PropertySchema)
    : string * PropertySchema :=
  let (key, ps) := entry in
  let ps :=
    if bool_decide (key = "line") || bool_decide (key = "column")
    then {| prop_type := prop_type ps; prop_description := prop_description ps;
            prop_default := prop_default ps; minimum := Some 1;
            minLength := minLength ps |}
    else ps in
  let ps :=
    if bool_decide (key = "query")
    then {| prop_type := prop_type ps; prop_description := prop_description ps;
            prop_default := prop_default ps; minimum := minimum ps;
            minLength := Some 1%nat |}
    else ps in
  (key, ps).

(** The validation schema: a deep clone of the public one (a value here, so
    the public schema is untouched), closed against unknown properties and
    with the bounds injected.  Every input schema of [TOOL_DEFINITIONS] is
    an object schema with [properties], so the guard of the source holds. *)
Definition validationSchema (public : InputSchema) : InputSchema :=
  {| properties := map constrainProperty (properties public);
     required := required public;
     additionalProperties := Some false |}.

Definition describeError (err : Ajv.ErrorObject) : string :=
  or_else (Ajv.instancePath err) "root" +:+ " " +:+ Ajv.message err.

Definition validateToolArgs (toolName : string) (args : gmap string json)
    : option string :=
  match List.find (λ tool, bool_decide (tool_name tool = toolName)) TOOL_DEFINITIONS with
  | None => Some ("Unknown tool: " +:+ toolName)
  | Some toolDef =>
      match Ajv.errors (validationSchema (inputSchema toolDef)) args with
      | [] => None
      | errors =>
          Some (or_else (String.concat ", " (map describeError errors))
                  "Invalid arguments")
      end
  end.

(** [execute(args as any)]: the cast is unchecked.  The tools are typed in
    the embedding; arguments that do not have the declared types stop the
    call with a [TypeError], a case that validation excludes. *)
Definition TypeError : Thrown := Error "TypeError".

Definition getString (args : gmap string json) (key : string) : option string :=
  match args !! key with
  | Some (JString s) => Some s
  | _ => None
  end.

Definition getNumber (args : gmap string json) (key : string) : option Z :=
  match args !! key with
  | Some (JNumber n) => Some n
  | _ => None
  end.

Definition getOptionalBool (args : gmap string json) (key : string)
    : option (option bool) :=
  match args !! key with
  | None => Some None
  | Some (JBool b) => Some (Some b)
  | Some _ => None
  end.

Definition asHoverArgs (args : gmap string json) : option HoverArgs :=
  file ← getString args "file";
  line ← getNumber args "line";
  column ← getNumber args "column";
  Some {| hover_file := file; hover_line := line; hover_column := column |}.

Definition asDefinitionArgs (args : gmap string json) : option DefinitionArgs :=
  file ← getString args "file";
  line ← getNumber args "line";
  column ← getNumber args "column";
  Some {| definition_file := file; definition_line := line;
          definition_column := column |}.

Definition asReferencesArgs (args : gmap string json) : option ReferencesArgs :=
  file ← getString args "file";
  line ← getNumber args "line";
  column ← getNumber args "column";
  includeDeclaration ← getOptionalBool args "includeDeclaration";
  Some {| references_file := file; references_line := line;
          references_column := column;
          references_includeDeclaration := includeDeclaration |}.

Definition asSymbolsArgs (args : gmap string json) : option SymbolsArgs :=
  query ← getString args "query";
  Some {| symbols_query := query |}.

Definition asDiagnosticsArgs (args : gmap string json) : option DiagnosticsArgs :=
  file ← getString args "file";
  Some {| diagnostics_file := file |}.

Definition execute {A} (decoded : option A) (tool : A → M CallToolResult)
    : M CallToolResult :=
  match decoded with
  | Some a => tool a
  | None => throw TypeError
  end.

(** The [switch (name)] of the [CallToolRequestSchema] handler. *)
Definition dispatch (env : Env) (name : string) (args : gmap string json)
    : M CallToolResult :=
  if bool_decide (name = "swift-hover")
  then execute (asHoverArgs args) (createHoverTool env)
  else if bool_decide (name = "swift-definition")
  then execute (asDefinitionArgs args) (createDefinitionTool env)
  else if bool_decide (name = "swift-references")
  then execute (asReferencesArgs args) (createReferencesTool env)
  else if bool_decide (name = "swift-symbols")
  then execute (asSymbolsArgs args) (createSymbolsTool env)
  else if bool_decide (name = "swift-diagnostics")
  then execute (asDiagnosticsArgs args) (createDiagnosticsTool env)
  else throw (Error ("Unknown tool: " +:+ name)).

(** The handler of [CallToolRequestSchema]; [if (validationError)] is taken
    by every non-empty string. *)
Definition callTool (env : Env) (name : string) (args : option (gmap string json))
    : M CallToolResult :=
  match args with
  | None => ret (TextContent "Error: No arguments provided")
  | Some args =>
      try_catch
        (match validateToolArgs name args with
         | Some validationError =>
             if bool_decide (validationError = "") then dispatch env name args
             else ret (TextContent ("Validation error: " +:+ validationError))
         | None => dispatch env name args
         end)
        (λ error, ret (TextContent ("Error: " +:+ errorMessage error)))
  end.

(** ** Vocabulary of the properties *)

(** The document and query operations of the client, as a caller can
    invoke them once the client exists. *)
Inductive Operation : Type :=
| OpenFile (uri content : string)
| UpdateFile (uri content : string) (version : Z)
| CloseFile (uri : string)
| Hover (uri : string) (line character : Z)
| Definition_ (uri : string) (line character : Z)
| References (uri : string) (line character : Z) (includeDeclaration : bool)
| WorkspaceSymbols (query : string).

Definition discard {A} (m : M A) : M unit := let* _ := m in ret ().

Definition perform (env : Env) (op : Operation) : M unit :=
  match op with
  | OpenFile uri content => openFile uri content
  | UpdateFile uri content version => updateFile uri content version
  | CloseFile uri => closeFile uri
  | Hover uri line character => discard (hover env uri line character)
  | Definition_ uri line character => discard (definition env uri line character)
  | References uri line character includeDeclaration =>
      discard (references env uri line character includeDeclaration)
  | WorkspaceSymbols query => discard (workspaceSymbols env query)
  end.

(** An operation writes nothing when it is [openFile] on a document that is
    tracked with exactly this content; every other operation writes a
    message. *)
Definition silent (op : Operation) (s : Client) : bool :=
  match op with
  | OpenFile uri content =>
      match openFiles s !! uri with
      | Some {| content := existingContent |} =>
          bool_decide (existingContent = content)
      | None => false
      end
  | _ => false
  end.

(** What happens to a client over time: [connect], calls of its
    operations, notifications from the subprocess, the end of the
    subprocess, [shutdown]. *)
Inductive Event : Type :=
| Connects (workspaceRoot : string)
| Calls (op : Operation)
| Receives (n : Inbound)
| Exits (code : Z)
| ShutsDown.

Definition step (env : Env) (e : Event) (s : Client) : Client :=
  match e with
  | Connects workspaceRoot => (connect env workspaceRoot s).2
  | Calls op => (perform env op s).2
  | Receives n => onNotification n s
  | Exits code => processExits code s
  | ShutsDown => (shutdown env s).2
  end.

Definition run (env : Env) (history : list Event) (s : Client) : Client :=
  foldl (λ s e, step env e s) s history.

(** The diagnostics carried by the most recent [publishDiagnostics] for
    [uri] in a history, if there is one. *)
Fixpoint lastPublished (uri : string) (history : list Event)
    : option (list Lsp.Diagnostic) :=
  match history with
  | [] => None
  | e :: rest =>
      match lastPublished uri rest with
      | Some ds => Some ds
      | None =>
          match e with
          | Receives (PublishDiagnostics uri' ds) =>
              if bool_decide (uri' = uri) then Some ds else None
          | _ => None
          end
      end
  end.

Definition listening (s : Client) : Prop :=
  Transport.state (connection s) = Transport.Listening.

Definition subprocessRunning (s : Client) : bool :=
  match process s with
  | Some p => running p
  | None => false
  end.

(** The frames written between two states of the client. *)
Definition written (before after : Client) : list Frame :=
  drop (length (Transport.sent (connection before)))
       (Transport.sent (connection after)).

(** A call of one of the five tools. *)
Inductive ToolCall : Type :=
| SwiftHover (args : HoverArgs)
| SwiftDefinition (args : DefinitionArgs)
| SwiftReferences (args : ReferencesArgs)
| SwiftSymbols (args : SymbolsArgs)
| SwiftDiagnostics (args : DiagnosticsArgs).

Definition executeTool (env : Env) (call : ToolCall) : M CallToolResult :=
  match call with
  | SwiftHover args => createHoverTool env args
  | SwiftDefinition args => createDefinitionTool env args
  | SwiftReferences args => createReferencesTool env args
  | SwiftSymbols args => createSymbolsTool env args
  | SwiftDiagnostics args => createDiagnosticsTool env args
  end.

(** How each tool introduces the cause of a failure. *)
Definition failurePrefix (call : ToolCall) : string :=
  match call with
  | SwiftHover _ => "Failed to get hover information: "
  | SwiftDefinition _ => "Failed to find definition: "
  | SwiftReferences _ => "Failed to find references: "
  | SwiftSymbols _ => "Failed to search symbols: "
  | SwiftDiagnostics _ => "Failed to get diagnostics: "
  end.

(** The file a tool reads, for the tools that read one. *)
Definition fileOf (call : ToolCall) : option string :=
  match call with
  | SwiftHover args => Some (hover_file args)
  | SwiftDefinition args => Some (definition_file args)
  | SwiftReferences args => Some (references_file args)
  | SwiftSymbols _ => None
  | SwiftDiagnostics args => Some (diagnostics_file args)
  end.


(** The file of the call, if it reads one, can be read. *)
Definition fileReadable (env : Env) (call : ToolCall) : Prop :=
  match fileOf call with
  | Some file => ∃ content, readFile env file = Return content
  | None => True
  end.


(** [path:line:character] with the position made one-based. *)
Definition renderedAt (path : string) (p : Lsp.Position) : string :=
  path +:+ ":" +:+ pretty (Lsp.line p + 1) +:+ ":" +:+ pretty (Lsp.character p + 1).

(** The request a position-taking call has to issue: the same file, the
    line and the column each lowered by one. *)
Definition zeroBasedRequest (env : Env) (call : ToolCall) : option Outgoing :=
  match call with
  | SwiftHover args =>
      Some (HoverParams (fileUri env (hover_file args))
              (hover_line args - 1) (hover_column args - 1))
  | SwiftDefinition args =>
      Some (DefinitionParams (fileUri env (definition_file args))
              (definition_line args - 1) (definition_column args - 1))
  | SwiftReferences args =>
      Some (ReferenceParams (fileUri env (references_file args))
              (references_line args - 1) (references_column args - 1)
              (default true (references_includeDeclaration args)))
  | SwiftSymbols _ | SwiftDiagnostics _ => None
  end.

(** The message with which each tool reports that nothing was found. *)
Definition nothingFound (call : ToolCall) : string :=
  match call with
  | SwiftHover _ => "No type information available at this position"
  | SwiftDefinition _ => "No definition found at this position"
  | SwiftReferences _ => "No references found for this symbol"
  | SwiftSymbols args =>
      "No symbols found matching " +:+ dquote +:+ symbols_query args +:+ dquote
  | SwiftDiagnostics _ => "No diagnostics (errors or warnings) found for this file"
  end.

(** The internal result of the call is absent or empty: a [null] reply, a
    hover without contents (or with the empty string), an empty list; for
    diagnostics, no entries in the cache when it is read. *)
Definition answeredWithNothing (env : Env) (call : ToolCall) (s : Client) : Prop :=
  match call with
  | SwiftHover args =>
      ∃ result,
        hoverReply env (fileUri env (hover_file args))
          (hover_line args - 1) (hover_column args - 1) = Return result
        ∧ (result = None
           ∨ ∃ h, result = Some h
                  ∧ (Lsp.contents h = None ∨ Lsp.contents h = Some (Lsp.Plain "")))
  | SwiftDefinition args =>
      ∃ result,
        definitionReply env (fileUri env (definition_file args))
          (definition_line args - 1) (definition_column args - 1) = Return result
        ∧ (result = None ∨ result = Some (Lsp.Many []))
  | SwiftReferences args =>
      ∃ result,
        referencesReply env (fileUri env (references_file args))
          (references_line args - 1) (references_column args - 1)
          (default true (references_includeDeclaration args)) = Return result
        ∧ (result = None ∨ result = Some [])
  | SwiftSymbols args =>
      ∃ result,
        symbolsReply env (symbols_query args) = Return result
        ∧ (result = None ∨ result = Some [])
  | SwiftDiagnostics args =>
      getDiagnostics (fileUri env (diagnostics_file args))
        (receive (arrivals env) s) = []
  end.

(** The public input schema of a tool, by name. *)
Definition toolSchema (name : string) : option InputSchema :=
  inputSchema <$>
    List.find (λ tool, bool_decide (tool_name tool = name)) TOOL_DEFINITIONS.

(** [key] is not a property that the schema of tool [name] declares. *)
Definition undeclared (name key : string) : Prop :=
  ∀ schema, toolSchema name = Some schema → key ∉ (properties schema).*1.

(** The arguments that validation has to turn down: a property the tool
    does not declare, a line or a column below 1, an empty query. *)
Definition mustBeRejected (name : string) (args : gmap string json) : Prop :=
  (∃ key, is_Some (args !! key) ∧ undeclared name key)
  ∨ (∃ n, args !! "line" = Some (JNumber n) ∧ n < 1)
  ∨ (∃ n, args !! "column" = Some (JNumber n) ∧ n < 1)
  ∨ args !! "query" = Some (JString "").


(** The specification's reading of [shutdown()]: once it has completed, the
    subprocess is not running and every operation fails with
    [ConnectionClosedError]. *)
Definition ShutdownIsTerminal (env : Env) (s : Client) : Prop :=
  ∀ s', shutdown env s = (Return (), s') →
        subprocessRunning s' = false
        ∧ ∀ op : Operation, (perform env op s').1 = Throw ConnectionClosedError.

(** ** A sample world

    One concrete file system and subprocess, on which the properties below
    are exercised. *)

Definition sampleFile : string := "/test/file.swift".
Definition sampleUri : string := "file:///test/file.swift".

Definition samplePosition (line character : Z) : Lsp.Range :=
  {| Lsp.start := {| Lsp.line := line; Lsp.character := character |};
     Lsp.end_ := {| Lsp.line := line; Lsp.character := character + 1 |} |}.

Definition sampleDiagnostic : Lsp.Diagnostic :=
  {| Lsp.diagRange := samplePosition 2 4; Lsp.severity := Some 1;
     Lsp.message := "cannot find 'y' in scope"; Lsp.source := Some "sourcekitd" |}.

Definition sampleEnv : Env :=
  {| readFile := λ path,
       if bool_decide (path = sampleFile) then Return "import Foundation"
       else Throw (ErrnoException "ENOENT" "ENOENT: no such file or directory");
     fileUri := λ path, "file://" +:+ path;
     fsPath := λ uri, Return (String.substring 7 (String.length uri - 7) uri);
     initializeReply := λ _, Return ();
     hoverReply := λ _ _ _,
       Return (Some {| Lsp.contents := Some (Lsp.Plain "let x: String");
                       Lsp.hoverRange := None |});
     definitionReply := λ _ _ _, Return None;
     referencesReply := λ uri _ _ _,
       Return (Some [ {| Lsp.uri := uri; Lsp.range := samplePosition 0 4 |};
                      {| Lsp.uri := uri; Lsp.range := samplePosition 9 0 |} ]);
     symbolsReply := λ _, Return (Some []);
     shutdownReply := Return ();
     arrivals := [PublishDiagnostics sampleUri [sampleDiagnostic]] |}.

(** The client after [connect('/test/workspace')]. *)
Definition connected : Client := (connect sampleEnv "/test/workspace" newClient).2.

(** ... and after [openFile] of the sample document. *)
Definition opened : Client := (openFile sampleUri "import Foundation" connected).2.

(** Request A is sent before request B; B's reply arrives first. *)
Definition twoCalls : list (string * Outgoing) :=
  [("A", HoverParams sampleUri 0 4); ("B", DefinitionParams sampleUri 0 4)].

Definition replyFor (id : N) : string :=
  if bool_decide (id = 0%N) then "result of A" else "result of B".



(** The sample subprocess when it pushes nothing more, and the client once
    the diagnostics of the sample document have arrived. *)
Definition quietEnv : Env :=
  {| readFile := readFile sampleEnv; fileUri := fileUri sampleEnv;
     fsPath := fsPath sampleEnv; initializeReply := initializeReply sampleEnv;
     hoverReply := hoverReply sampleEnv;
     definitionReply := definitionReply sampleEnv;
     referencesReply := referencesReply sampleEnv;
     symbolsReply := symbolsReply sampleEnv;
     shutdownReply := shutdownReply sampleEnv;
     arrivals := [] |}.

Definition diagnosed : Client := receive (arrivals sampleEnv) opened.

(** ** Vocabulary of the further properties *)

(** [openFile] called once for each content of a list, in order, on the
    same document. *)
Definition openEach (uri : string) (contents : list string) (s : Client)
    : Client :=
  foldl (λ s text, (openFile uri text s).2) s contents.

(** How often the content differs from the one before it, starting from
    [previous]. *)
Fixpoint countChanges (previous : string) (contents : list string) : nat :=
  match contents with
  | [] => 0
  | text :: rest =>
      (if bool_decide (previous = text) then 0 else 1)%nat
      + countChanges text rest
  end.

(** Every tracked document has a version of at least 1. *)
Definition wellVersioned (s : Client) : Prop :=
  ∀ uri info, openFiles s !! uri = Some info → 1 ≤ version info.

Definition isRequest (f : Frame) : bool :=
  match f with
  | Request _ _ => true
  | Notification _ => false
  end.

(** The name under which the dispatcher knows a tool call. *)
Definition toolName (call : ToolCall) : string :=
  match call with
  | SwiftHover _ => "swift-hover"
  | SwiftDefinition _ => "swift-definition"
  | SwiftReferences _ => "swift-references"
  | SwiftSymbols _ => "swift-symbols"
  | SwiftDiagnostics _ => "swift-diagnostics"
  end.

(** The document an operation is about, for the operations that change
    the tracker. *)
Definition documentOf (op : Operation) : option string :=
  match op with
  | OpenFile uri _ => Some uri
  | CloseFile uri => Some uri
  | _ => None
  end.

(** The client after [shutdown()] of the sample session. *)
Definition closed : Client := (shutdown sampleEnv opened).2.

(** What has to be written to bring the subprocess up to date with a
    document whose file has the given content: a [didOpen] when it is not
    tracked, a [didChange] with the next version when it is tracked with
    other content, nothing when it is tracked with this content. *)
Definition syncFrames (uri text : string) (s : Client) : list Frame :=
  match openFiles s !! uri with
  | None => [Notification (DidOpen uri "swift" 1 text)]
  | Some {| version := v; content := c |} =>
      if bool_decide (c = text) then []
      else [Notification (DidChange uri (v + 1) text)]
  end.

(** The request of a call, for the calls that make one. *)
Definition requestOf (env : Env) (call : ToolCall) : option Outgoing :=
  match call with
  | SwiftSymbols args => Some (WorkspaceSymbolParams (symbols_query args))
  | _ => zeroBasedRequest env call
  end.

(** The summary for given numbers of errors, warnings and others. *)
Definition summaryOf (errors warnings others : nat) : string :=
  String.concat ", "
    ((if bool_decide (0 < errors)%nat
      then [pretty errors +:+ " error" +:+ plural errors] else [])
     ++ (if bool_decide (0 < warnings)%nat
         then [pretty warnings +:+ " warning" +:+ plural warnings] else [])
     ++ (if bool_decide (0 < others)%nat
         then [pretty others +:+ " other" +:+ plural others] else [])).

(** The arguments object that carries a tool call. *)
Definition encodeCall (call : ToolCall) : gmap string json :=
  match call with
  | SwiftHover args =>
      <["file" := JString (hover_file args)]>
        (<["line" := JNumber (hover_line args)]>
           (<["column" := JNumber (hover_column args)]> ∅))
  | SwiftDefinition args =>
      <["file" := JString (definition_file args)]>
        (<["line" := JNumber (definition_line args)]>
           (<["column" := JNumber (definition_column args)]> ∅))
  | SwiftReferences args =>
      <["file" := JString (references_file args)]>
        (<["line" := JNumber (references_line args)]>
           (<["column" := JNumber (references_column args)]>
              match references_includeDeclaration args with
              | Some b => {[ "includeDeclaration" := JBool b ]}
              | None => ∅
              end))
  | SwiftSymbols args => {[ "query" := JString (symbols_query args) ]}
  | SwiftDiagnostics args => {[ "file" := JString (diagnostics_file args) ]}
  end.

(** The bounds of a call: lines and columns from 1, a query that is not
    empty. *)
Definition inBounds (call : ToolCall) : Prop :=
  match call with
  | SwiftHover args => 1 ≤ hover_line args ∧ 1 ≤ hover_column args
  | SwiftDefinition args => 1 ≤ definition_line args ∧ 1 ≤ definition_column args
  | SwiftReferences args => 1 ≤ references_line args ∧ 1 ≤ references_column args
  | SwiftSymbols args => symbols_query args ≠ ""
  | SwiftDiagnostics _ => True
  end.

(** How a symbol's line names its container: [if (symbol.containerName)]
    skips a missing and an empty name alike. *)
Definition inContainer (containerName : option string) : string :=
  match containerName with
  | Some container =>
      if bool_decide (container = "") then "" else " in " +:+ container
  | None => ""
  end.

(** * Properties *)

(** ** Generic facts about the operations *)

Ltac unfold_ops :=
  unfold perform, discard, openFile, updateFile, closeFile, hover, definition,
    references, workspaceSymbols, notify, request, bind, ret, throw, await in *.

Ltac split_ops :=
  unfold_ops; simpl in *;
  repeat (case_match; simplify_eq/=); try done.

Lemma notify_spec (p : Outgoing) (s : Client) :
  notify p s =
    match Transport.guard (connection s) with
    | Some e => (Throw e, s)
    | None =>
        (Return (),
         set_connection
           {| Transport.state := Transport.state (connection s);
              Transport.nextId := Transport.nextId (connection s);
              Transport.pending := Transport.pending (connection s);
              Transport.sent := Transport.sent (connection s) ++ [Notification p] |}
           s)
    end.
Proof.
  unfold notify, Transport.sendNotification.
  by destruct (Transport.guard (connection s)).
Qed.

Lemma guard_listening (s : Client) :
  listening s → Transport.guard (connection s) = None.
Proof. unfold listening, Transport.guard. by intros ->. Qed.

Lemma guard_disposed (s : Client) :
  Transport.state (connection s) = Transport.Disposed →
  Transport.guard (connection s) = Some ConnectionClosedError.
Proof. unfold Transport.guard. by intros ->. Qed.

(** [connect] leaves a listening connection behind once the subprocess has
    answered [initialize], whatever the client was before. *)
Lemma connect_listening (env : Env) (workspaceRoot : string) (s : Client) :
  initializeReply env workspaceRoot = Return () →
  ∃ s1, connect env workspaceRoot s = (Return (), s1)
        ∧ listening s1
        ∧ subprocessRunning s1 = true
        ∧ spawned s1 = S (spawned s).
Proof.
  intros Hinit. unfold connect, spawn, bind, request, notify, ret. simpl.
  rewrite Hinit. simpl. by eexists.
Qed.

(** Only the notification handler writes the diagnostics cache. *)
Lemma perform_diagnosticsCache (env : Env) (op : Operation) (s : Client) :
  diagnosticsCache (perform env op s).2 = diagnosticsCache s.
Proof.
  destruct op; split_ops.
Qed.

Lemma connect_diagnosticsCache (env : Env) (workspaceRoot : string) (s : Client) :
  diagnosticsCache (connect env workspaceRoot s).2 = diagnosticsCache s.
Proof.
  unfold connect, spawn. split_ops.
Qed.

Lemma shutdown_diagnosticsCache (env : Env) (s : Client) :
  diagnosticsCache (shutdown env s).2 = diagnosticsCache s.
Proof.
  unfold shutdown, kill. split_ops.
Qed.

Lemma lastPublished_snoc (uri : string) (history : list Event) (e : Event) :
  lastPublished uri (history ++ [e]) =
    match e with
    | Receives (PublishDiagnostics uri' ds) =>
        if bool_decide (uri' = uri) then Some ds else lastPublished uri history
    | _ => lastPublished uri history
    end.
Proof.
  induction history as [|e' history IH]; simpl.
  - destruct e as [| |[]| |]; simpl; try done.
  - rewrite IH. destruct e as [| |[uri' ds|]| |]; simpl; try done.
    by case_bool_decide.
Qed.

Lemma run_snoc (env : Env) (history : list Event) (e : Event) (s : Client) :
  run env (history ++ [e]) s = step env e (run env history s).
Proof. unfold run. by rewrite foldl_app. Qed.

(** ** The diagnostics cache *)

(** C4.  Whatever a client goes through ([connect], calls of its
    operations, notifications, the end of the subprocess, [shutdown]),
    [getDiagnostics(uri)] afterwards is the array of the most recent
    [publishDiagnostics] received for [uri], which replaced every earlier
    one; when none was received it is what it was before, and for a client
    that starts out new this is the empty array. *)
Theorem getDiagnostics_most_recent (env : Env) (history : list Event)
    (uri : string) :
  (∀ s, getDiagnostics uri (run env history s) =
          default (getDiagnostics uri s) (lastPublished uri history))
  ∧ getDiagnostics uri (run env history newClient) =
      default [] (lastPublished uri history).
Proof.
  assert (∀ s, getDiagnostics uri (run env history s) =
               default (getDiagnostics uri s) (lastPublished uri history))
    as Hgeneral; [|split; [done|by rewrite Hgeneral]].
  intros s. induction history as [|e history IH] using rev_ind; [done|].
  rewrite run_snoc, lastPublished_snoc.
  destruct e as [root|op|[uri' ds|]|code|]; simpl.
  - unfold getDiagnostics in *. by rewrite connect_diagnosticsCache.
  - unfold getDiagnostics in *. by rewrite perform_diagnosticsCache.
  - unfold getDiagnostics in *; simpl. case_bool_decide as Huri.
    + subst. by rewrite lookup_insert_eq.
    + by rewrite lookup_insert_ne.
  - done.
  - done.
  - unfold getDiagnostics in *. by rewrite shutdown_diagnosticsCache.
Qed.

(** Two notifications for the same document: the second set replaces the
    first; a document that was never mentioned has no diagnostics. *)
Example second_publish_replaces_first :
  let s := run sampleEnv
             [Receives (PublishDiagnostics sampleUri [sampleDiagnostic; sampleDiagnostic]);
              Calls (OpenFile sampleUri "import Foundation");
              Receives (PublishDiagnostics sampleUri [sampleDiagnostic])]
             connected in
  getDiagnostics sampleUri s = [sampleDiagnostic]
  ∧ getDiagnostics "file:///test/other.swift" s = [].
Proof. split; vm_compute; reflexivity. Qed.

(** ** The document synchronization tracker *)

Lemma written_snoc (s s1 : Client) (frames : list Frame) :
  Transport.sent (connection s1) = Transport.sent (connection s) ++ frames →
  written s s1 = frames.
Proof. unfold written. intros ->. by rewrite drop_app_length. Qed.

Lemma written_refl (s : Client) : written s s = [].
Proof. unfold written. by rewrite drop_all. Qed.

(** First open: one [didOpen] at version 1, and the entry is stored. *)
Lemma openFile_first (uri text : string) (s : Client) :
  listening s →
  openFiles s !! uri = None →
  ∃ s1,
    openFile uri text s = (Return (), s1)
    ∧ openFiles s1 = <[uri := {| version := 1; content := text |}]> (openFiles s)
    ∧ Transport.state (connection s1) = Transport.Listening
    ∧ written s s1 = [Notification (DidOpen uri "swift" 1 text)].
Proof.
  intros Hl Hnone. unfold openFile. rewrite Hnone.
  unfold bind. rewrite notify_spec, (guard_listening _ Hl). simpl.
  eexists. split; [done|]. split; [done|]. split; [done|].
  by apply written_snoc.
Qed.

(** Open on a tracked document with the same content: nothing happens. *)
Lemma openFile_same (uri text : string) (s : Client) (v : Z) :
  openFiles s !! uri = Some {| version := v; content := text |} →
  openFile uri text s = (Return (), s).
Proof.
  intros Hsome. unfold openFile. rewrite Hsome.
  by rewrite bool_decide_eq_true_2.
Qed.

(** Open on a tracked document with other content: one [didChange] with
    the next version and the whole new content. *)
Lemma openFile_changed (uri text : string) (s : Client) (existing : FileInfo) :
  listening s →
  openFiles s !! uri = Some existing →
  content existing ≠ text →
  ∃ s1,
    openFile uri text s = (Return (), s1)
    ∧ openFiles s1 =
        <[uri := {| version := version existing + 1; content := text |}]>
          (openFiles s)
    ∧ Transport.state (connection s1) = Transport.Listening
    ∧ written s s1 =
        [Notification (DidChange uri (version existing + 1) text)].
Proof.
  intros Hl Hsome Hne. unfold openFile. rewrite Hsome.
  destruct existing as [v c]; simpl in *.
  rewrite bool_decide_eq_false_2 by done.
  unfold updateFile, bind. rewrite notify_spec, (guard_listening _ Hl). simpl.
  eexists. split; [done|]. split; [done|]. split; [done|].
  by apply written_snoc.
Qed.

(** C2.  On a listening connection, opening a document twice with the same
    content succeeds both times and the second call changes nothing: it
    writes no message and leaves the tracker (the whole client) as it was.
    When the document was not open before, the two calls together write
    exactly one [didOpen] and no [didChange]. *)
Theorem openFile_twice_identical (uri text : string) (s : Client) :
  listening s →
  ∃ s1,
    openFile uri text s = (Return (), s1)
    ∧ openFile uri text s1 = (Return (), s1)
    ∧ (openFiles s !! uri = None →
       written s s1 = [Notification (DidOpen uri "swift" 1 text)]).
Proof.
  intros Hl. destruct (openFiles s !! uri) as [existing|] eqn:Hlook.
  - destruct (decide (content existing = text)) as [Heq|Hne].
    + destruct existing as [v c]; simpl in Heq; subst c.
      exists s. rewrite (openFile_same _ _ _ _ Hlook). done.
    + destruct (openFile_changed uri text s existing Hl Hlook Hne)
        as (s1 & Hrun & Hfiles & _ & _).
      exists s1. split; [done|]. split; [|done].
      eapply openFile_same. rewrite Hfiles. apply lookup_insert_eq.
  - destruct (openFile_first uri text s Hl Hlook) as (s1 & Hrun & Hfiles & _ & Hw).
    exists s1. split; [done|]. split; [|done].
    eapply openFile_same. rewrite Hfiles. apply lookup_insert_eq.
Qed.

(** C3.  On a listening connection, the first open of a document stores
    version 1; re-opening a tracked document with different content stores
    the old version plus one together with the new content, and writes
    exactly one message: a [didChange] that carries this new version and
    the whole new content. *)
Theorem openFile_changed_increments_version (uri text : string) (s : Client) :
  listening s →
  (openFiles s !! uri = None →
   ∃ s1, openFile uri text s = (Return (), s1)
         ∧ getFileVersion uri s1 = Some 1)
  ∧ (∀ existing : FileInfo,
       openFiles s !! uri = Some existing →
       content existing ≠ text →
       ∃ s1,
         openFile uri text s = (Return (), s1)
         ∧ getFileVersion uri s1 = Some (version existing + 1)
         ∧ openFiles s1 !! uri =
             Some {| version := version existing + 1; content := text |}
         ∧ written s s1 =
             [Notification (DidChange uri (version existing + 1) text)]).
Proof.
  intros Hl. split.
  - intros Hnone.
    destruct (openFile_first uri text s Hl Hnone) as (s1 & Hrun & Hfiles & _).
    exists s1. split; [done|].
    unfold getFileVersion. by rewrite Hfiles, lookup_insert_eq.
  - intros existing Hsome Hne.
    destruct (openFile_changed uri text s existing Hl Hsome Hne)
      as (s1 & Hrun & Hfiles & _ & Hw).
    exists s1. split; [done|].
    unfold getFileVersion. rewrite Hfiles, lookup_insert_eq. done.
Qed.

Lemma connected_listening : listening connected.
Proof. reflexivity. Qed.

Lemma opened_listening : listening opened.
Proof. reflexivity. Qed.

Lemma openFile_twice_identical_witness :
  listening connected
  ∧ ∃ s1,
      openFile sampleUri "import Foundation" connected = (Return (), s1)
      ∧ openFile sampleUri "import Foundation" s1 = (Return (), s1)
      ∧ (openFiles connected !! sampleUri = None →
         written connected s1 =
           [Notification (DidOpen sampleUri "swift" 1 "import Foundation")]).
Proof.
  split; [reflexivity|].
  apply (openFile_twice_identical sampleUri "import Foundation" connected).
  reflexivity.
Defined.

Lemma openFile_changed_increments_version_witness :
  listening opened
  ∧ ∃ s1,
      openFile sampleUri "import UIKit" opened = (Return (), s1)
      ∧ getFileVersion sampleUri s1 = Some 2
      ∧ openFiles s1 !! sampleUri =
          Some {| version := 2; content := "import UIKit" |}
      ∧ written opened s1 = [Notification (DidChange sampleUri 2 "import UIKit")].
Proof.
  split; [reflexivity|].
  apply (proj2 (openFile_changed_increments_version
                  sampleUri "import UIKit" opened eq_refl)
           {| version := 1; content := "import Foundation" |}).
  - vm_compute. reflexivity.
  - discriminate.
Defined.

(** ** Request correlation *)

Section CorrelationFacts.

Context {K P : Type}.

Implicit Types (c : Transport.t K) (calls : list (K * Outgoing)) (ids order : list N).

Lemma sendRequest_inv k p c id c1 :
  Transport.sendRequest k p c = inr (id, c1) →
  id = Transport.nextId c
  ∧ Transport.state c = Transport.Listening
  ∧ Transport.state c1 = Transport.Listening
  ∧ Transport.nextId c1 = N.succ id
  ∧ Transport.pending c1 = <[id := k]> (Transport.pending c).
Proof.
  unfold Transport.sendRequest, Transport.guard.
  destruct (Transport.state c) eqn:Hst; intros [= <- <-]; simpl.
  by rewrite ?Hst.
Qed.

(** A batch can always be issued on a listening connection. *)
Lemma sendAll_listening calls c :
  Transport.state c = Transport.Listening →
  ∃ ids c', Transport.sendAll calls c = inr (ids, c').
Proof.
  revert c. induction calls as [|[k p] calls IH]; intros c Hst; simpl.
  - by eexists _, _.
  - unfold Transport.sendRequest, Transport.guard. rewrite Hst.
    edestruct IH as (ids & c' & ->); [|by eexists _, _]. done.
Qed.

(** Identifiers are handed out upwards from [nextId]; entries below it are
    not touched by later requests. *)
Lemma sendAll_fresh calls c ids c' :
  Transport.sendAll calls c = inr (ids, c') →
  (Transport.nextId c ≤ Transport.nextId c')%N
  ∧ Forall (λ id, Transport.nextId c ≤ id < Transport.nextId c')%N ids
  ∧ NoDup ids
  ∧ ∀ j, (j < Transport.nextId c)%N →
         Transport.pending c' !! j = Transport.pending c !! j.
Proof.
  revert c ids c'. induction calls as [|[k p] calls IH]; intros c ids c'; simpl.
  - intros [= <- <-]. split; [lia|]. split; [constructor|].
    split; [constructor|done].
  - destruct (Transport.sendRequest k p c) as [e|[id c1]] eqn:Hreq; [done|].
    destruct (Transport.sendAll calls c1) as [e|[ids1 c2]] eqn:Hall; [done|].
    intros [= <- <-].
    apply sendRequest_inv in Hreq as (-> & _ & _ & Hnext & Hpend).
    destruct (IH _ _ _ Hall) as (Hle & Hall' & Hnd & Hkeep).
    rewrite Hnext in Hle, Hall', Hkeep.
    split; [lia|]. split.
    { constructor; [lia|]. eapply Forall_impl; [done|]. simpl. lia. }
    split.
    { constructor; [|done]. intros Hin.
      rewrite Forall_forall in Hall'. apply Hall' in Hin. lia. }
    intros j Hj. rewrite Hkeep by lia. rewrite Hpend.
    apply lookup_insert_ne. lia.
Qed.

(** After a batch, each identifier is registered to the caller that issued
    the request with that position in the batch. *)
Lemma sendAll_owners calls c ids c' :
  Transport.sendAll calls c = inr (ids, c') →
  Forall2 (λ id call, Transport.pending c' !! id = Some call.1) ids calls.
Proof.
  revert c ids c'. induction calls as [|[k p] calls IH]; intros c ids c'; simpl.
  - intros [= <- <-]. constructor.
  - destruct (Transport.sendRequest k p c) as [e|[id c1]] eqn:Hreq; [done|].
    destruct (Transport.sendAll calls c1) as [e|[ids1 c2]] eqn:Hall; [done|].
    intros [= <- <-].
    apply sendRequest_inv in Hreq as (-> & _ & _ & Hnext & Hpend).
    constructor; [|by eapply IH].
    destruct (sendAll_fresh _ _ _ _ Hall) as (_ & _ & _ & Hkeep).
    rewrite Hkeep by lia. rewrite Hpend. simpl. apply lookup_insert_eq.
Qed.

Lemma deliverAll_cons (id : N) (x : P) (rest : list (N * P)) c :
  (Transport.deliverAll ((id, x) :: rest) c).1 =
    match Transport.pending c !! id with
    | Some k =>
        (k, x)
        :: (Transport.deliverAll rest
              {| Transport.state := Transport.state c;
                 Transport.nextId := Transport.nextId c;
                 Transport.pending := delete id (Transport.pending c);
                 Transport.sent := Transport.sent c |}).1
    | None => (Transport.deliverAll rest c).1
    end.
Proof.
  simpl. unfold Transport.deliver.
  destruct (Transport.pending c !! id);
    by destruct (Transport.deliverAll rest _).
Qed.

(** Draining replies with pairwise distinct identifiers: every reply goes
    to the continuation registered under its own identifier. *)
Lemma deliverAll_by_identifier (payload : N → P) order c :
  NoDup order →
  (Transport.deliverAll ((λ id, (id, payload id)) <$> order) c).1 =
    omap (λ id, (λ k, (k, payload id)) <$> Transport.pending c !! id) order.
Proof.
  revert c. induction order as [|id order IH]; intros c Hnd; [done|].
  apply NoDup_cons in Hnd as [Hnotin Hnd].
  rewrite fmap_cons, deliverAll_cons. csimpl.
  destruct (Transport.pending c !! id) as [k|] eqn:Hk; csimpl.
  - rewrite IH by done. simpl. f_equal.
    apply list_omap_ext, Forall2_same_length_lookup_2; [done|].
    intros i x y Hx Hy. simplify_eq.
    rewrite lookup_delete_ne; [done|]. intros ->.
    apply Hnotin. by eapply list_elem_of_lookup_2.
  - by rewrite IH.
Qed.

(** C1.  Issue any batch of requests on a connection, one after the other;
    let the replies arrive in any order whatsoever.  Then the continuations
    resumed are exactly the callers of the batch, each once, and each with
    the payload of the reply whose identifier is the one its own request
    was given. *)
Theorem replies_resolve_by_identifier calls c ids c' (payload : N → P) order :
  Transport.sendAll calls c = inr (ids, c') →
  order ≡ₚ ids →
  (Transport.deliverAll ((λ id, (id, payload id)) <$> order) c').1
    ≡ₚ zip calls.*1 (payload <$> ids).
Proof.
  intros Hsend Hperm.
  destruct (sendAll_fresh _ _ _ _ Hsend) as (_ & _ & Hnd & _).
  rewrite deliverAll_by_identifier by by rewrite Hperm.
  rewrite Hperm. clear Hperm Hnd order.
  apply sendAll_owners in Hsend.
  match goal with |- ?l ≡ₚ ?r => replace l with r; [done|symmetry] end.
  induction Hsend as [|id [k p] ids calls Hown _ IH]; [done|].
  csimpl in *. rewrite Hown. csimpl. by rewrite IH.
Qed.

End CorrelationFacts.

(** Request A is sent before request B and B's reply arrives first. *)
Example reply_B_before_A :
  match Transport.sendAll twoCalls (Transport.listen Transport.create) with
  | inr (ids, c') =>
      ids = [0; 1]%N
      ∧ (Transport.deliverAll [(1%N, replyFor 1); (0%N, replyFor 0)] c').1
        = [("B", "result of B"); ("A", "result of A")]
  | inl _ => False
  end.
Proof. vm_compute. done. Qed.

Lemma replies_resolve_by_identifier_witness :
  ∃ c',
    Transport.sendAll twoCalls (Transport.listen Transport.create) = inr ([0; 1]%N, c')
    ∧ [1; 0]%N ≡ₚ [0; 1]%N
    ∧ (Transport.deliverAll ((λ id, (id, replyFor id)) <$> [1; 0]%N) c').1
      ≡ₚ zip twoCalls.*1 (replyFor <$> [0; 1]%N).
Proof.
  eexists. split; [vm_compute; reflexivity|]. split; [apply Permutation_swap|].
  apply (replies_resolve_by_identifier twoCalls
           (Transport.listen Transport.create) [0; 1]%N _ replyFor [1; 0]%N).
  - vm_compute. reflexivity.
  - apply Permutation_swap.
Defined.

(** ** Exit of the subprocess and shutdown *)

Lemma notify_disposed (p : Outgoing) (s : Client) :
  Transport.state (connection s) = Transport.Disposed →
  notify p s = (Throw ConnectionClosedError, s).
Proof. intros Hd. by rewrite notify_spec, guard_disposed. Qed.

Lemma request_disposed {A} (p : Outgoing) (answer : Completion A) (s : Client) :
  Transport.state (connection s) = Transport.Disposed →
  request p answer s = (Throw ConnectionClosedError, s).
Proof.
  intros Hd. unfold request, Transport.sendRequest.
  by rewrite guard_disposed.
Qed.

Lemma perform_silent (env : Env) (op : Operation) (s : Client) :
  silent op s = true → perform env op s = (Return (), s).
Proof.
  destruct op; try done. simpl.
  destruct (openFiles s !! uri) as [[v c]|] eqn:Hlook; [|done].
  intros ->%bool_decide_eq_true. by eapply openFile_same.
Qed.

Lemma perform_disposed (env : Env) (op : Operation) (s : Client) :
  Transport.state (connection s) = Transport.Disposed →
  silent op s = false →
  perform env op s = (Throw ConnectionClosedError, s).
Proof.
  intros Hd Hs. destruct op; simpl in *;
    unfold discard, hover, definition, references, workspaceSymbols,
      updateFile, closeFile, bind;
    rewrite ?request_disposed, ?notify_disposed by done; try done.
  unfold openFile. destruct (openFiles s !! uri) as [[v c]|]; simpl in *.
  - rewrite Hs. unfold updateFile, bind. by rewrite notify_disposed.
  - unfold bind. by rewrite notify_disposed.
Qed.





(** C6, as the specification states it, fails on the code: after
    [shutdown()] has completed, re-opening the tracked document with the
    content it already has returns normally. *)
Lemma shutdown_is_terminal_counterexample : ¬ ShutdownIsTerminal sampleEnv opened.
Proof.
  intros Hterminal.
  destruct (Hterminal (shutdown sampleEnv opened).2) as [_ Hops].
  { vm_compute. reflexivity. }
  specialize (Hops (OpenFile sampleUri "import Foundation")).
  vm_compute in Hops. discriminate.
Qed.

(** C6, amended.  Once [shutdown()] has completed, the subprocess is not
    running and the connection is disposed; every document or query
    operation that writes a message fails with [ConnectionClosedError] and
    changes nothing, while [openFile] on a document that is tracked with
    exactly the given content still returns normally, as a no-op. *)
Theorem shutdown_closes_connection (env : Env) (s s' : Client) :
  shutdown env s = (Return (), s') →
  subprocessRunning s' = false
  ∧ Transport.state (connection s') = Transport.Disposed
  ∧ ∀ op : Operation,
      perform env op s' =
        if silent op s' then (Return (), s')
        else (Throw ConnectionClosedError, s').
Proof.
  intros Hdown.
  assert (subprocessRunning s' = false
          ∧ Transport.state (connection s') = Transport.Disposed) as [Hrun Hd].
  { revert Hdown. unfold shutdown, kill, subprocessRunning.
    unfold_ops. simpl.
    repeat (case_match; simplify_eq/=); try done;
      intros; simplify_eq/=; done. }
  split; [done|]. split; [done|]. intros op.
  destruct (silent op s') eqn:Hs.
  - by apply perform_silent.
  - by apply perform_disposed.
Qed.

(** After [shutdown()], the diagnostics tool still answers from the cache
    for a document that is tracked with its present content, while the
    hover tool reports the closed connection. *)
Example tools_after_shutdown :
  let s := (shutdown quietEnv diagnosed).2 in
  (createDiagnosticsTool quietEnv {| diagnostics_file := sampleFile |} s).1
  = Return (TextContent
      ("Found 1 diagnostic (1 error):" +:+ newline
       +:+ "- Error at 3:5: cannot find 'y' in scope [sourcekitd]"))
  ∧ (createHoverTool quietEnv
       {| hover_file := sampleFile; hover_line := 1; hover_column := 5 |} s).1
    = Return (TextContent
        ("Failed to get hover information: "
         +:+ errorMessage ConnectionClosedError)).
Proof. split; vm_compute; reflexivity. Qed.

Lemma shutdown_closes_connection_witness :
  shutdown sampleEnv opened = (Return (), (shutdown sampleEnv opened).2)
  ∧ perform sampleEnv (Hover sampleUri 0 4) (shutdown sampleEnv opened).2
    = (Throw ConnectionClosedError, (shutdown sampleEnv opened).2).
Proof.
  split; [vm_compute; reflexivity|].
  apply (proj2 (proj2 (shutdown_closes_connection sampleEnv opened
                         (shutdown sampleEnv opened).2 eq_refl))
           (Hover sampleUri 0 4)).
Defined.

(** ** The translation layer *)

(** Opening on a listening connection always succeeds; it allocates no
    identifier and touches neither the cache nor the lifecycle. *)
Lemma openFile_listening (uri text : string) (s : Client) :
  listening s →
  ∃ s1,
    openFile uri text s = (Return (), s1)
    ∧ listening s1
    ∧ Transport.nextId (connection s1) = Transport.nextId (connection s)
    ∧ diagnosticsCache s1 = diagnosticsCache s.
Proof.
  intros Hl. unfold openFile.
  destruct (openFiles s !! uri) as [[v c]|].
  - case_bool_decide.
    + by exists s.
    + unfold updateFile, bind. rewrite notify_spec, (guard_listening _ Hl).
      by eexists.
  - unfold bind. rewrite notify_spec, (guard_listening _ Hl). by eexists.
Qed.

Lemma ensureOpen_listening (env : Env) (file uri content : string) (s : Client) :
  listening s →
  readFile env file = Return content →
  ∃ s1,
    ensureOpen env file uri s = (Return (), s1)
    ∧ openFile uri content s = (Return (), s1)
    ∧ listening s1
    ∧ Transport.nextId (connection s1) = Transport.nextId (connection s)
    ∧ diagnosticsCache s1 = diagnosticsCache s.
Proof.
  intros Hl Hread.
  destruct (openFile_listening uri content s Hl) as (s1 & Hopen & Hrest).
  exists s1. split; [|done].
  unfold ensureOpen, try_catch, bind, await. by rewrite Hread, Hopen.
Qed.



Lemma request_listening {A} (p : Outgoing) (answer : Completion A) (s : Client) :
  listening s →
  ∃ s1,
    request p answer s = (answer, s1)
    ∧ Transport.sent (connection s1) =
        Transport.sent (connection s) ++ [Request (Transport.nextId (connection s)) p]
    ∧ diagnosticsCache s1 = diagnosticsCache s
    ∧ openFiles s1 = openFiles s.
Proof.
  intros Hl. unfold request, Transport.sendRequest.
  rewrite (guard_listening _ Hl).
  destruct answer; eexists; (split; [reflexivity|]); simpl;
    unfold Transport.deliver; simpl; by rewrite ?lookup_insert_eq.
Qed.

Lemma request_refused {A} (p : Outgoing) (answer : Completion A) (s : Client)
    (e : Thrown) :
  Transport.guard (connection s) = Some e →
  request p answer s = (Throw e, s).
Proof. intros Hg. unfold request, Transport.sendRequest. by rewrite Hg. Qed.

(** A [catch] clause that returns turns every throw into a result. *)
Lemma try_catch_ret {A} (m : M A) (f : Thrown → A) (s : Client) :
  try_catch m (λ error, ret (f error)) s =
    match m s with
    | (Throw e, s1) => (Return (f e), s1)
    | r => r
    end.
Proof. unfold try_catch, ret. by destruct (m s) as [[]]. Qed.

Lemma try_catch_never_throws {A} (m : M A) (f : Thrown → A) (s : Client)
    (e : Thrown) :
  (try_catch m (λ error, ret (f error)) s).1 ≠ Throw e.
Proof. rewrite try_catch_ret. by destruct (m s) as [[]]. Qed.

Lemma executeTool_never_throws (env : Env) (call : ToolCall) (s : Client)
    (e : Thrown) :
  (executeTool env call s).1 ≠ Throw e.
Proof. destruct call; apply try_catch_never_throws. Qed.







(** *** Positions *)

Lemma mapC_returns {A B} (f : A → Completion B) (g : A → B) (xs : list A) :
  (∀ x, x ∈ xs → f x = Return (g x)) →
  mapC f xs = Return (map g xs).
Proof.
  induction xs as [|x xs IH]; intros Hall; [done|]. simpl.
  rewrite (Hall x) by apply list_elem_of_here.
  rewrite IH; [done|]. intros y Hy. apply Hall. by apply list_elem_of_further.
Qed.

Lemma formatLocation_one_based (env : Env) (location : Lsp.Location)
    (path : string) :
  fsPath env (Lsp.uri location) = Return path →
  formatLocation env location =
    Return (renderedAt path (Lsp.start (Lsp.range location))).
Proof. unfold formatLocation. by intros ->. Qed.




(** End-to-end scenario 1: external line 1, column 5 is sent as
    [{line: 0, character: 4}], and the plain hover text comes back as is. *)
Example hover_line_1_column_5 :
  let call := {| hover_file := sampleFile; hover_line := 1; hover_column := 5 |} in
  (createHoverTool sampleEnv call opened).1 = Return (TextContent "let x: String")
  ∧ written opened (createHoverTool sampleEnv call opened).2
    = [Request 1 (HoverParams sampleUri 0 4)].
Proof. split; vm_compute; reflexivity. Qed.

(** End-to-end scenario 3: two locations in the reply, two entries in the
    text, one-based. *)
Example references_two_locations :
  (createReferencesTool sampleEnv
     {| references_file := sampleFile; references_line := 1;
        references_column := 5; references_includeDeclaration := None |}
     opened).1
  = Return (TextContent
      ("Found 2 references:" +:+ newline +:+ "- /test/file.swift:1:5"
       +:+ newline +:+ "- /test/file.swift:10:1")).
Proof. vm_compute. reflexivity. Qed.


(** *** Absent and empty results *)

Lemma append_nonempty (a b : string) : a ≠ "" → a +:+ b ≠ "".
Proof. by destruct a. Qed.

Lemma or_else_nonempty (a b : string) : b ≠ "" → or_else a b ≠ "".
Proof. unfold or_else. by case_bool_decide. Qed.

Lemma renderHover_nonempty (result : option Lsp.Hover) : renderHover result ≠ "".
Proof.
  unfold renderHover. destruct (noHover result); [done|].
  destruct result as [[[c|] r]|]; try done. by apply or_else_nonempty.
Qed.

Lemma renderDefinition_nonempty (env : Env) (result : option Lsp.Definition_)
    (text : string) :
  renderDefinition env result = Return text → text ≠ "".
Proof.
  unfold renderDefinition. destruct result as [d|]; [|by intros [= <-]].
  destruct (locationsOf d); [by intros [= <-]|].
  destruct (mapC _ _) as [[|d0 [|d1 ds]]| |]; by intros [= <-].
Qed.

Lemma renderReferences_nonempty (env : Env) (result : option (list Lsp.Location))
    (text : string) :
  renderReferences env result = Return text → text ≠ "".
Proof.
  unfold renderReferences. destruct result as [[|l ls]|]; try by intros [= <-].
  destruct (mapC _ _); by intros [= <-].
Qed.

Lemma renderSymbols_nonempty (env : Env) (query : string)
    (result : option (list Lsp.SymbolInformation)) (text : string) :
  renderSymbols env query result = Return text → text ≠ "".
Proof.
  unfold renderSymbols. destruct result as [[|l ls]|]; try by intros [= <-].
  destruct (mapC _ _); by intros [= <-].
Qed.

Lemma renderDiagnostics_nonempty (diagnostics : list Lsp.Diagnostic) :
  renderDiagnostics diagnostics ≠ "".
Proof. by destruct diagnostics. Qed.

(** No tool ever returns the empty text. *)
Lemma executeTool_nonempty (env : Env) (call : ToolCall) (s : Client)
    (text : string) :
  (executeTool env call s).1 = Return (TextContent text) → text ≠ "".
Proof.
  destruct call as [args|args|args|args|args]; simpl;
    unfold createHoverTool, createDefinitionTool, createReferencesTool,
      createSymbolsTool, createDiagnosticsTool;
    rewrite try_catch_ret; unfold bind, ret, await, settle;
    repeat (case_match; simplify_eq/=); try done;
    intros [= <-];
    eauto using renderHover_nonempty, renderDefinition_nonempty,
      renderReferences_nonempty, renderSymbols_nonempty,
      renderDiagnostics_nonempty.
Qed.

Lemma receive_diagnosticsCache (ns : list Inbound) (s1 s2 : Client) :
  diagnosticsCache s1 = diagnosticsCache s2 →
  diagnosticsCache (receive ns s1) = diagnosticsCache (receive ns s2).
Proof.
  revert s1 s2. unfold receive.
  induction ns as [|n ns IH]; intros s1 s2 Heq; [done|]. simpl.
  apply IH. destruct n; simpl; by rewrite ?Heq.
Qed.

Lemma executeTool_nothing_found (env : Env) (call : ToolCall) (s : Client) :
  listening s →
  fileReadable env call →
  answeredWithNothing env call s →
  (executeTool env call s).1 = Return (TextContent (nothingFound call)).
Proof.
  intros Hl Hread Hnothing.
  destruct call as [args|args|args|args|args]; simpl in *;
    unfold createHoverTool, createDefinitionTool, createReferencesTool,
      createSymbolsTool, createDiagnosticsTool,
      hover, definition, references, workspaceSymbols;
    rewrite try_catch_ret; unfold bind;
    try match goal with
        | |- context [ensureOpen _ ?f ?u _] =>
            let content := fresh "content" in
            destruct Hread as [content Hread];
            destruct (ensureOpen_listening _ f u content _ Hl Hread)
              as (s1 & -> & _ & Hl1 & _ & Hcache)
        end.
  - destruct Hnothing as (result & -> & Hres).
    match goal with
    | |- context [request ?q ?a ?st] =>
        destruct (request_listening q a st Hl1) as (s2 & -> & _)
    end.
    simpl. destruct Hres as [->|(h & -> & [Hc|Hc])]; [done| |];
      destruct h as [c r]; simpl in Hc; by subst c.
  - destruct Hnothing as (result & -> & Hres).
    match goal with
    | |- context [request ?q ?a ?st] =>
        destruct (request_listening q a st Hl1) as (s2 & -> & _)
    end.
    by destruct Hres as [->| ->].
  - destruct Hnothing as (result & -> & Hres).
    match goal with
    | |- context [request ?q ?a ?st] =>
        destruct (request_listening q a st Hl1) as (s2 & -> & _)
    end.
    by destruct Hres as [->| ->].
  - destruct Hnothing as (result & -> & Hres).
    match goal with
    | |- context [request ?q ?a ?st] =>
        destruct (request_listening q a st Hl) as (s2 & -> & _)
    end.
    by destruct Hres as [->| ->].
  - unfold settle, ret. simpl.
    unfold getDiagnostics in *.
    by rewrite (receive_diagnosticsCache _ s1 s Hcache), Hnothing.
Qed.

(** C9.  When the internal result of a tool is absent or empty (a [null]
    reply; a hover without contents; an empty list of locations or
    symbols; no cached diagnostics), the tool answers with its explicit
    nothing-found message.  More generally no tool ever answers with an
    empty text: a hover whose contents render to nothing gets
    [No type information available]. *)
Theorem nothing_found_is_said (env : Env) (call : ToolCall) (s : Client) :
  (listening s → fileReadable env call → answeredWithNothing env call s →
   (executeTool env call s).1 = Return (TextContent (nothingFound call)))
  ∧ nothingFound call ≠ ""
  ∧ (∀ text, (executeTool env call s).1 = Return (TextContent text) → text ≠ "")
  ∧ (∀ h, renderHover (Some h) = "No type information available at this position"
          ∨ renderHover (Some h) = "No type information available"
          ∨ ∃ c, Lsp.contents h = Some c ∧ renderHover (Some h) = hoverText c).
Proof.
  split; [apply executeTool_nothing_found|].
  split; [by destruct call|].
  split; [apply executeTool_nonempty|].
  intros [[c|] r]; unfold renderHover; simpl; [|by left].
  destruct c as [t| | |]; simpl; unfold or_else;
    repeat case_bool_decide; simplify_eq/=; eauto.
Qed.

(** End-to-end scenario 2: a [null] definition reply. *)
Example definition_null_reply :
  (createDefinitionTool sampleEnv
     {| definition_file := sampleFile; definition_line := 1;
        definition_column := 5 |} opened).1
  = Return (TextContent "No definition found at this position").
Proof. vm_compute. reflexivity. Qed.

Lemma nothing_found_is_said_witness :
  (executeTool sampleEnv
     (SwiftDefinition {| definition_file := sampleFile; definition_line := 1;
                         definition_column := 5 |}) connected).1
  = Return (TextContent "No definition found at this position").
Proof.
  apply (proj1 (nothing_found_is_said sampleEnv
           (SwiftDefinition {| definition_file := sampleFile;
                               definition_line := 1; definition_column := 5 |})
           connected)).
  - reflexivity.
  - exists "import Foundation". reflexivity.
  - exists None. split; [reflexivity|by left].
Defined.

(** ** Validation of tool arguments *)

Lemma flat_map_nonempty {A B} (f : A → list B) (xs : list A) (x : A) :
  x ∈ xs → f x ≠ [] → flat_map f xs ≠ [].
Proof.
  induction 1 as [x xs|x y xs _ IH]; simpl; intros Hx Happ;
    apply app_eq_nil in Happ as [Hhead Htail].
  - by apply Hx.
  - by apply IH.
Qed.

Lemma validationSchema_names (public : InputSchema) :
  (properties (validationSchema public)).*1 = (properties public).*1.
Proof.
  simpl. induction (properties public) as [|[key ps] rest IH]; [done|].
  csimpl. f_equal. exact IH.
Qed.

(** The bounds that validation injects. *)
Lemma validationSchema_bounds (public : InputSchema) (key : string)
    (ps : PropertySchema) :
  (key, ps) ∈ properties public →
  ∃ ps',
    (key, ps') ∈ properties (validationSchema public)
    ∧ prop_type ps' = prop_type ps
    ∧ (key = "line" ∨ key = "column" → minimum ps' = Some 1)
    ∧ (key = "query" → minLength ps' = Some 1%nat).
Proof.
  intros Hin. exists (constrainProperty (key, ps)).2. split.
  - simpl. apply list_elem_of_fmap. exists (key, ps). split; [|done].
    unfold constrainProperty. done.
  - unfold constrainProperty. simpl.
    split; [by repeat case_match|].
    split.
    + intros [-> | ->]; by simpl.
    + by intros ->.
Qed.

Lemma undeclared_is_additional (public : InputSchema) (args : gmap string json)
    (key : string) (v : json) :
  args !! key = Some v →
  key ∉ (properties public).*1 →
  Ajv.violations (validationSchema public) args ≠ [].
Proof.
  intros Hlook Hnot Hnil. unfold Ajv.violations in Hnil.
  apply app_eq_nil in Hnil as [_ Hnil]. apply app_eq_nil in Hnil as [Hnil _].
  revert Hnil. unfold Ajv.additional. simpl.
  apply (flat_map_nonempty _ _ (key, v)).
  - by apply elem_of_map_to_list.
  - unfold Ajv.declared. rewrite validationSchema_names. simpl.
    by rewrite bool_decide_eq_false_2.
Qed.

Lemma declared_is_checked (public : InputSchema) (args : gmap string json)
    (key : string) (ps' : PropertySchema) (v : json) :
  (key, ps') ∈ properties (validationSchema public) →
  args !! key = Some v →
  Ajv.checkValue key ps' v ≠ [] →
  Ajv.violations (validationSchema public) args ≠ [].
Proof.
  intros Hin Hlook Hcheck Hnil. unfold Ajv.violations in Hnil.
  apply app_eq_nil in Hnil as [_ Hnil]. apply app_eq_nil in Hnil as [_ Hnil].
  revert Hnil. unfold Ajv.invalidProperties.
  apply (flat_map_nonempty _ _ (key, ps')); [done|]. simpl. by rewrite Hlook.
Qed.

Lemma below_minimum (key : string) (ps : PropertySchema) (n : Z) :
  minimum ps = Some 1 → n < 1 → Ajv.checkValue key ps (JNumber n) ≠ [].
Proof.
  intros Hmin Hn. unfold Ajv.checkValue.
  destruct (Ajv.hasType (prop_type ps) (JNumber n)); simpl; [|done].
  rewrite Hmin. by rewrite bool_decide_eq_true_2.
Qed.

Lemma empty_query (key : string) (ps : PropertySchema) :
  minLength ps = Some 1%nat → Ajv.checkValue key ps (JString "") ≠ [].
Proof.
  intros Hmin. unfold Ajv.checkValue.
  destruct (Ajv.hasType (prop_type ps) (JString "")); simpl; [|done].
  by rewrite Hmin.
Qed.

(** A value under a bounded key violates the validation schema, whether
    the tool declares the key (the bound is checked) or not (the key is an
    additional property). *)
Lemma bounded_key_violates (public : InputSchema) (args : gmap string json)
    (key : string) (v : json) :
  args !! key = Some v →
  (∀ ps', (key = "line" ∨ key = "column" → minimum ps' = Some 1) →
          (key = "query" → minLength ps' = Some 1%nat) →
          Ajv.checkValue key ps' v ≠ []) →
  Ajv.violations (validationSchema public) args ≠ [].
Proof.
  intros Hlook Hcheck.
  destruct (decide (key ∈ (properties public).*1)) as [Hin|Hnot].
  - apply list_elem_of_fmap in Hin as ([key' ps] & -> & Hin). simpl in *.
    destruct (validationSchema_bounds public _ _ Hin)
      as (ps' & Hin' & _ & Hmin & Hlen).
    eapply declared_is_checked; eauto.
  - by eapply undeclared_is_additional.
Qed.

Lemma rejected_violates (name : string) (args : gmap string json)
    (public : InputSchema) :
  toolSchema name = Some public →
  mustBeRejected name args →
  Ajv.violations (validationSchema public) args ≠ [].
Proof.
  intros Hschema [(key & [v Hlook] & Hun)|[(n & Hlook & Hn)|[(n & Hlook & Hn)|Hlook]]].
  - eapply undeclared_is_additional; eauto.
  - eapply bounded_key_violates; [done|].
    intros ps' Hmin _. apply below_minimum; auto.
  - eapply bounded_key_violates; [done|].
    intros ps' Hmin _. apply below_minimum; auto.
  - eapply bounded_key_violates; [done|].
    intros ps' _ Hlen. apply empty_query; auto.
Qed.

Lemma validateToolArgs_rejects (name : string) (args : gmap string json) :
  mustBeRejected name args →
  ∃ msg, validateToolArgs name args = Some msg ∧ msg ≠ "".
Proof.
  intros Hrej. unfold validateToolArgs.
  pose proof (rejected_violates name args) as Hviol.
  unfold toolSchema in Hviol.
  destruct (List.find _ TOOL_DEFINITIONS) as [toolDef|]; [|by eexists].
  specialize (Hviol _ eq_refl Hrej). unfold Ajv.errors.
  destruct (Ajv.violations _ args) as [|err errs]; [done|]. simpl.
  eexists. split; [done|]. by apply or_else_nonempty.
Qed.

(** C10.  A tool call whose arguments carry a property the tool does not
    declare, a line or a column below 1, or an empty query is answered with
    a [Validation error: ...] text that names a reason, and the tool is not
    executed: the client is left exactly as it was, so no document is
    opened and no request is written.  The schema that is checked is the
    public one with [additionalProperties] set to [false], [minimum] 1 on
    [line] and [column] and [minLength] 1 on [query]. *)
Theorem invalid_arguments_are_rejected (env : Env) (name : string)
    (args : gmap string json) (s : Client) :
  (mustBeRejected name args →
   ∃ msg,
     msg ≠ ""
     ∧ callTool env name (Some args) s =
         (Return (TextContent ("Validation error: " +:+ msg)), s))
  ∧ (∀ public,
       additionalProperties (validationSchema public) = Some false
       ∧ required (validationSchema public) = required public
       ∧ ∀ key ps,
           (key, ps) ∈ properties public →
           ∃ ps',
             (key, ps') ∈ properties (validationSchema public)
             ∧ prop_type ps' = prop_type ps
             ∧ (key = "line" ∨ key = "column" → minimum ps' = Some 1)
             ∧ (key = "query" → minLength ps' = Some 1%nat)).
Proof.
  split.
  - intros Hrej.
    destruct (validateToolArgs_rejects name args Hrej) as (msg & Hval & Hne).
    exists msg. split; [done|].
    unfold callTool. rewrite try_catch_ret, Hval.
    by rewrite bool_decide_eq_false_2.
  - intros public. split; [done|]. split; [done|].
    apply validationSchema_bounds.
Qed.

(** A call with [line: 0] and a call with an unknown property. *)
Example line_zero_is_rejected :
  callTool sampleEnv "swift-hover"
    (Some (<["file" := JString sampleFile]>
             (<["line" := JNumber 0]> (<["column" := JNumber 5]> ∅))))
    connected
  = (Return (TextContent "Validation error: /line must be >= 1"), connected).
Proof. vm_compute. reflexivity. Qed.

Example unknown_property_is_rejected :
  callTool sampleEnv "swift-diagnostics"
    (Some (<["file" := JString sampleFile]> (<["verbose" := JBool true]> ∅)))
    connected
  = (Return (TextContent
       "Validation error: root must NOT have additional properties"),
     connected).
Proof. vm_compute. reflexivity. Qed.

(** A valid call goes through to the tool. *)
Example valid_call_is_executed :
  (callTool sampleEnv "swift-hover"
     (Some (<["file" := JString sampleFile]>
              (<["line" := JNumber 1]> (<["column" := JNumber 5]> ∅))))
     connected).1
  = Return (TextContent "let x: String").
Proof. vm_compute. reflexivity. Qed.

Lemma invalid_arguments_are_rejected_witness :
  ∃ msg,
    msg ≠ ""
    ∧ callTool sampleEnv "swift-symbols" (Some {[ "query" := JString "" ]}) connected
      = (Return (TextContent ("Validation error: " +:+ msg)), connected).
Proof.
  apply (proj1 (invalid_arguments_are_rejected sampleEnv "swift-symbols"
                  {[ "query" := JString "" ]} connected)).
  right. right. right. reflexivity.
Defined.

(** Arguments that pass validation have the shape the tools are typed
    with: the unchecked cast of the dispatcher never meets a [TypeError]
    and the switch never meets an unknown name. *)
Lemma validated_call_runs_tool (env : Env) (name : string)
    (args : gmap string json) :
  validateToolArgs name args = None →
  ∃ call, dispatch env name args = executeTool env call.
Proof.
  unfold validateToolArgs, dispatch. simpl.
  repeat case_bool_decide; simplify_eq/=; try done;
    unfold Ajv.errors; intros Hval;
    match type of Hval with
    | match take 1 ?v with _ => _ end = None =>
        assert (v = []) as Hnil by (by destruct v)
    end; clear Hval;
    unfold Ajv.violations in Hnil;
    apply app_eq_nil in Hnil as [Hreq Hnil];
    apply app_eq_nil in Hnil as [_ Hprops];
    unfold Ajv.missingRequired in Hreq; unfold Ajv.invalidProperties in Hprops;
    simpl in Hreq, Hprops;
    unfold asHoverArgs, asDefinitionArgs, asReferencesArgs, asSymbolsArgs,
      asDiagnosticsArgs, getString, getNumber, getOptionalBool.
  all: repeat match goal with
       | H : context [match lookup ?k ?m with _ => _ end] |- _ =>
           let v := fresh "v" in
           destruct (lookup k m) as [v|] eqn:?; [destruct v|]; simplify_eq/=
       end.
  all: repeat match goal with
       | H : _ ++ _ = [] |- _ => apply app_eq_nil in H as [? ?]
       end; simplify_eq/=.
  all: try by eexists (SwiftHover _).
  all: try by eexists (SwiftDefinition _).
  all: try by eexists (SwiftReferences _).
  all: try by eexists (SwiftSymbols _).
  all: try by eexists (SwiftDiagnostics _).
Qed.

(** The message of a failed validation is never empty, so the test
    [if (validationError)] of the handler is taken by every failure. *)
Lemma validateToolArgs_message_nonempty (name : string)
    (args : gmap string json) (msg : string) :
  validateToolArgs name args = Some msg → msg ≠ "".
Proof.
  unfold validateToolArgs.
  destruct (List.find _ TOOL_DEFINITIONS); [|by intros [= <-]].
  destruct (Ajv.errors _ args); [done|].
  intros [= <-]. by apply or_else_nonempty.
Qed.

(** * Further properties of the client *)

(** ** Closing and re-opening documents *)

Lemma notify_listening (p : Outgoing) (s : Client) :
  listening s →
  ∃ s1,
    notify p s = (Return (), s1)
    ∧ listening s1
    ∧ openFiles s1 = openFiles s
    ∧ diagnosticsCache s1 = diagnosticsCache s
    ∧ Transport.nextId (connection s1) = Transport.nextId (connection s)
    ∧ Transport.sent (connection s1) =
        Transport.sent (connection s) ++ [Notification p].
Proof.
  intros Hl. rewrite notify_spec, (guard_listening _ Hl). by eexists.
Qed.

Lemma notify_refused (p : Outgoing) (s : Client) (e : Thrown) :
  Transport.guard (connection s) = Some e →
  notify p s = (Throw e, s).
Proof. intros Hg. by rewrite notify_spec, Hg. Qed.

Lemma closeFile_listening (uri : string) (s : Client) :
  listening s →
  ∃ s1,
    closeFile uri s = (Return (), s1)
    ∧ listening s1
    ∧ openFiles s1 = delete uri (openFiles s)
    ∧ Transport.sent (connection s1) =
        Transport.sent (connection s) ++ [Notification (DidClose uri)].
Proof.
  intros Hl. unfold closeFile, bind.
  destruct (notify_listening (DidClose uri) s Hl)
    as (s1 & -> & Hl1 & Hfiles & _ & _ & Hsent).
  eexists. split; [done|]. simpl. by rewrite Hfiles.
Qed.

(** [closeFile] on a listening connection writes exactly one [didClose] and
    forgets the document, whether it was tracked or not; the other
    documents keep their entries. *)
Theorem closeFile_forgets (uri : string) (s : Client) :
  listening s →
  ∃ s1,
    closeFile uri s = (Return (), s1)
    ∧ written s s1 = [Notification (DidClose uri)]
    ∧ getFileVersion uri s1 = None
    ∧ (∀ other, other ≠ uri → openFiles s1 !! other = openFiles s !! other)
    ∧ listening s1.
Proof.
  intros Hl.
  destruct (closeFile_listening uri s Hl) as (s1 & Hclose & Hl1 & Hfiles & Hsent).
  exists s1. split; [done|].
  split; [by apply written_snoc|].
  split; [unfold getFileVersion; by rewrite Hfiles, lookup_delete_eq|].
  split; [|done].
  intros other Hne. rewrite Hfiles. by apply lookup_delete_ne.
Qed.

Lemma closeFile_forgets_witness :
  listening opened
  ∧ ∃ s1,
      closeFile sampleUri opened = (Return (), s1)
      ∧ written opened s1 = [Notification (DidClose sampleUri)]
      ∧ getFileVersion sampleUri s1 = None
      ∧ (∀ other, other ≠ sampleUri →
                  openFiles s1 !! other = openFiles opened !! other)
      ∧ listening s1.
Proof.
  split; [reflexivity|]. apply (closeFile_forgets sampleUri opened). reflexivity.
Defined.

(** Closing a document and opening it again starts over: whatever version
    it had reached, the new entry has version 1 and the subprocess gets a
    [didClose] followed by a [didOpen] with the whole content. *)
Theorem reopen_after_close_restarts (uri text : string) (s : Client) :
  listening s →
  ∃ s1 s2,
    closeFile uri s = (Return (), s1)
    ∧ openFile uri text s1 = (Return (), s2)
    ∧ openFiles s2 !! uri = Some {| version := 1; content := text |}
    ∧ written s s2 =
        [Notification (DidClose uri); Notification (DidOpen uri "swift" 1 text)].
Proof.
  intros Hl.
  destruct (closeFile_listening uri s Hl) as (s1 & Hclose & Hl1 & Hfiles & Hsent).
  assert (openFiles s1 !! uri = None) as Hnone
    by (rewrite Hfiles; apply lookup_delete_eq).
  destruct (openFile_first uri text s1 Hl1 Hnone)
    as (s2 & Hopen & Hfiles2 & _ & Hw).
  exists s1, s2. split; [done|]. split; [done|].
  split; [rewrite Hfiles2; apply lookup_insert_eq|].
  unfold written in *. rewrite Hsent in Hw.
  rewrite length_app in Hw. simpl in Hw.
  assert (Transport.sent (connection s2) =
          (Transport.sent (connection s) ++ [Notification (DidClose uri)])
          ++ [Notification (DidOpen uri "swift" 1 text)]) as ->.
  { revert Hopen. unfold openFile. rewrite Hnone. unfold bind.
    rewrite notify_spec, (guard_listening _ Hl1). intros [= <-]. simpl.
    by rewrite Hsent. }
  rewrite <- app_assoc. by rewrite drop_app_length.
Qed.

Lemma reopen_after_close_restarts_witness :
  listening opened
  ∧ ∃ s1 s2,
      closeFile sampleUri opened = (Return (), s1)
      ∧ openFile sampleUri "import UIKit" s1 = (Return (), s2)
      ∧ openFiles s2 !! sampleUri = Some {| version := 1; content := "import UIKit" |}
      ∧ written opened s2 =
          [Notification (DidClose sampleUri);
           Notification (DidOpen sampleUri "swift" 1 "import UIKit")].
Proof.
  split; [reflexivity|].
  apply (reopen_after_close_restarts sampleUri "import UIKit" opened).
  reflexivity.
Defined.

(** ** Operations on a connection that refuses traffic *)

(** On a connection that is not listening, every operation that has to
    write a message fails with the connection's error and leaves the client
    exactly as it was: no tracker entry is created, bumped or removed for a
    notification that could not be sent. *)
Theorem refused_operation_changes_nothing (env : Env) (op : Operation)
    (s : Client) (e : Thrown) :
  Transport.guard (connection s) = Some e →
  silent op s = false →
  perform env op s = (Throw e, s).
Proof.
  intros Hg Hs. destruct op; simpl in *;
    unfold discard, hover, definition, references, workspaceSymbols,
      updateFile, closeFile, bind;
    rewrite ?(request_refused _ _ _ _ Hg), ?(notify_refused _ _ _ Hg); try done.
  unfold openFile. destruct (openFiles s !! uri) as [[v c]|]; simpl in *.
  - rewrite Hs. unfold updateFile, bind. by rewrite (notify_refused _ _ _ Hg).
  - unfold bind. by rewrite (notify_refused _ _ _ Hg).
Qed.

Lemma refused_operation_changes_nothing_witness :
  Transport.guard (connection closed) = Some ConnectionClosedError
  ∧ silent (CloseFile sampleUri) closed = false
  ∧ perform sampleEnv (CloseFile sampleUri) closed
    = (Throw ConnectionClosedError, closed).
Proof.
  split; [reflexivity|]. split; [reflexivity|].
  apply (refused_operation_changes_nothing sampleEnv (CloseFile sampleUri)
           closed ConnectionClosedError); reflexivity.
Defined.

(** ** Versions *)

Lemma openFile_tracked (uri text : string) (s : Client) (v : Z) (c : string) :
  listening s →
  openFiles s !! uri = Some {| version := v; content := c |} →
  ∃ s1,
    openFile uri text s = (Return (), s1)
    ∧ listening s1
    ∧ openFiles s1 !! uri =
        Some {| version := if bool_decide (c = text) then v else v + 1;
                content := text |}
    ∧ Transport.sent (connection s1) =
        Transport.sent (connection s)
        ++ (if bool_decide (c = text) then []
            else [Notification (DidChange uri (v + 1) text)]).
Proof.
  intros Hl Hsome. unfold openFile. rewrite Hsome.
  case_bool_decide as Hc.
  - subst c. exists s. by rewrite app_nil_r.
  - unfold updateFile, bind. rewrite notify_spec, (guard_listening _ Hl).
    eexists. split; [done|]. split; [done|]. simpl.
    by rewrite lookup_insert_eq.
Qed.

Lemma last_cons_default {A} (l : list A) (x d : A) :
  List.last (x :: l) d = List.last l x.
Proof.
  revert x d. induction l as [|y l IH]; intros x d; [done|].
  change (List.last (x :: y :: l) d) with (List.last (y :: l) d).
  by rewrite !IH.
Qed.

Lemma openEach_tracked (uri : string) (contents : list string) (s : Client)
    (v : Z) (c : string) :
  listening s →
  openFiles s !! uri = Some {| version := v; content := c |} →
  let s' := openEach uri contents s in
  listening s'
  ∧ openFiles s' !! uri =
      Some {| version := v + Z.of_nat (countChanges c contents);
              content := List.last contents c |}
  ∧ length (Transport.sent (connection s')) =
      (length (Transport.sent (connection s)) + countChanges c contents)%nat.
Proof.
  revert s v c. induction contents as [|text rest IH]; intros s v c Hl Hsome.
  - simpl. split; [done|]. split; [|lia].
    rewrite Hsome. do 2 f_equal. lia.
  - destruct (openFile_tracked uri text s v c Hl Hsome)
      as (s1 & Hopen & Hl1 & Hfiles & Hsent).
    unfold openEach in *. cbn [foldl]. rewrite Hopen. cbn [snd].
    destruct (IH s1 _ _ Hl1 Hfiles) as (Hl' & Hfiles' & Hlen).
    split; [done|]. split.
    + rewrite Hfiles'. cbn [countChanges].
      rewrite last_cons_default.
      do 2 f_equal. case_bool_decide; lia.
    + rewrite Hlen, Hsent, length_app. cbn [countChanges].
      case_bool_decide; simpl; lia.
Qed.

(** The version of a document counts what was written about it.  Open a
    document that is not tracked and keep calling [openFile] with further
    contents: the stored version is one plus the number of calls whose
    content differed from the one before, the stored content is the last
    one given, and the number of messages written is exactly the version
    (one [didOpen], one [didChange] per change, nothing for a repetition). *)
Theorem version_counts_changes (uri first : string) (rest : list string)
    (s : Client) :
  listening s →
  openFiles s !! uri = None →
  let s' := openEach uri (first :: rest) s in
  openFiles s' !! uri =
    Some {| version := 1 + Z.of_nat (countChanges first rest);
            content := List.last rest first |}
  ∧ Z.of_nat (length (written s s')) = 1 + Z.of_nat (countChanges first rest).
Proof.
  intros Hl Hnone.
  destruct (openFile_first uri first s Hl Hnone)
    as (s1 & Hopen & Hfiles & Hl1 & Hw).
  assert (openFiles s1 !! uri = Some {| version := 1; content := first |})
    as Hsome by (rewrite Hfiles; apply lookup_insert_eq).
  assert (Transport.sent (connection s1) =
          Transport.sent (connection s)
          ++ [Notification (DidOpen uri "swift" 1 first)]) as Hsent.
  { revert Hopen. unfold openFile. rewrite Hnone. unfold bind.
    rewrite notify_spec, (guard_listening _ Hl).
    by intros [= <-]. }
  unfold openEach. cbn [foldl]. rewrite Hopen. cbn [snd]. cbv zeta.
  destruct (openEach_tracked uri rest s1 1 first Hl1 Hsome)
    as (_ & Hfiles' & Hlen).
  unfold openEach in *. split; [done|].
  unfold written. rewrite length_drop, Hlen, Hsent, length_app. simpl. lia.
Qed.

Lemma version_counts_changes_witness :
  listening connected
  ∧ openFiles connected !! sampleUri = None
  ∧ let s' := openEach sampleUri ["a"; "a"; "b"; "b"; "a"] connected in
    openFiles s' !! sampleUri = Some {| version := 3; content := "a" |}
    ∧ Z.of_nat (length (written connected s')) = 3.
Proof.
  split; [reflexivity|]. split; [reflexivity|].
  apply (version_counts_changes sampleUri "a" ["a"; "b"; "b"; "a"] connected);
    reflexivity.
Defined.

(** ** What the operations leave alone *)

(** An operation changes the tracker entry of no document but its own:
    queries and [updateFile] change no entry at all, [openFile] and
    [closeFile] only the entry of the URI they are given, whatever the
    connection and the subprocess do. *)
Theorem other_documents_untouched (env : Env) (op : Operation) (s : Client)
    (other : string) :
  documentOf op ≠ Some other →
  openFiles (perform env op s).2 !! other = openFiles s !! other.
Proof.
  intros Hdoc. destruct op; split_ops;
    by rewrite ?lookup_insert_ne, ?lookup_delete_ne by congruence.
Qed.

Lemma other_documents_untouched_witness :
  documentOf (CloseFile "file:///test/other.swift") ≠ Some sampleUri
  ∧ openFiles (perform sampleEnv (CloseFile "file:///test/other.swift") opened).2
      !! sampleUri
    = openFiles opened !! sampleUri.
Proof.
  split; [discriminate|].
  apply (other_documents_untouched sampleEnv
           (CloseFile "file:///test/other.swift") opened sampleUri).
  discriminate.
Defined.

Lemma connect_openFiles (env : Env) (workspaceRoot : string) (s : Client) :
  openFiles (connect env workspaceRoot s).2 = openFiles s.
Proof. unfold connect, spawn. split_ops. Qed.

Lemma shutdown_openFiles (env : Env) (s : Client) :
  openFiles (shutdown env s).2 = openFiles s.
Proof. unfold shutdown, kill. split_ops. Qed.

Lemma perform_wellVersioned (env : Env) (op : Operation) (s : Client) :
  wellVersioned s → wellVersioned (perform env op s).2.
Proof.
  intros Hwf uri' info. destruct op; split_ops; try by apply Hwf.
  - destruct (decide (uri = uri')) as [->|Hne].
    + rewrite lookup_insert_eq. intros [= <-]. simpl.
      match goal with
      | H : openFiles s !! uri' = Some _ |- _ => apply Hwf in H; simpl in H; lia
      end.
    + rewrite lookup_insert_ne by done. apply Hwf.
  - destruct (decide (uri = uri')) as [->|Hne].
    + rewrite lookup_insert_eq. by intros [= <-].
    + rewrite lookup_insert_ne by done. apply Hwf.
  - destruct (decide (uri = uri')) as [->|Hne].
    + by rewrite lookup_delete_eq.
    + rewrite lookup_delete_ne by done. apply Hwf.
Qed.

(** Whatever a client goes through from its creation on, every document it
    tracks has a version of at least 1: versions start at 1 and only grow
    while the document stays open. *)
Theorem versions_start_at_one (env : Env) (history : list Event) :
  wellVersioned (run env history newClient).
Proof.
  induction history as [|e history IH] using rev_ind; [done|].
  rewrite run_snoc. destruct e as [root|op|n|code|]; simpl.
  - intros uri info. rewrite connect_openFiles. apply IH.
  - by apply perform_wellVersioned.
  - by destruct n.
  - done.
  - intros uri info. rewrite shutdown_openFiles. apply IH.
Qed.

(** The diagnostics cache has no eviction: once a document has an entry,
    nothing the client goes through removes it; closing the document,
    shutting down and reconnecting included. *)
Theorem diagnostics_are_never_evicted (env : Env) (history : list Event)
    (s : Client) (uri : string) :
  is_Some (diagnosticsCache s !! uri) →
  is_Some (diagnosticsCache (run env history s) !! uri).
Proof.
  intros Hsome. induction history as [|e history IH] using rev_ind; [done|].
  rewrite run_snoc. destruct e as [root|op|[uri' ds|]|code|]; simpl.
  - by rewrite connect_diagnosticsCache.
  - by rewrite perform_diagnosticsCache.
  - destruct (decide (uri' = uri)) as [->|Hne].
    + by rewrite lookup_insert_eq.
    + by rewrite lookup_insert_ne.
  - done.
  - done.
  - by rewrite shutdown_diagnosticsCache.
Qed.

Lemma diagnostics_are_never_evicted_witness :
  is_Some (diagnosticsCache diagnosed !! sampleUri)
  ∧ is_Some (diagnosticsCache
               (run sampleEnv
                  [Calls (CloseFile sampleUri); ShutsDown;
                   Connects "/test/workspace"] diagnosed) !! sampleUri).
Proof.
  split; [by eexists|].
  apply (diagnostics_are_never_evicted sampleEnv
           [Calls (CloseFile sampleUri); ShutsDown; Connects "/test/workspace"]
           diagnosed sampleUri).
  by eexists.
Defined.

(** ** [connect] and [shutdown] *)


(** A client that connects again keeps its tracker: a document that was
    open in the earlier session still counts as open, so [openFile] with
    the tracked content writes nothing and the new subprocess receives no
    [didOpen] for it. *)
Theorem reconnect_keeps_tracker (env : Env) (workspaceRoot uri text : string)
    (v : Z) (s : Client) :
  initializeReply env workspaceRoot = Return () →
  openFiles s !! uri = Some {| version := v; content := text |} →
  let s1 := (connect env workspaceRoot s).2 in
  openFile uri text s1 = (Return (), s1)
  ∧ Transport.sent (connection s1) =
      [Request 0 (Initialize (fileUri env workspaceRoot));
       Notification Initialized].
Proof.
  intros Hinit Hsome. split.
  - eapply openFile_same. by rewrite connect_openFiles.
  - unfold connect, spawn, bind, request, notify, ret. simpl.
    by rewrite Hinit.
Qed.

Lemma reconnect_keeps_tracker_witness :
  initializeReply sampleEnv "/test/workspace" = Return ()
  ∧ openFiles opened !! sampleUri =
      Some {| version := 1; content := "import Foundation" |}
  ∧ let s1 := (connect sampleEnv "/test/workspace" opened).2 in
    openFile sampleUri "import Foundation" s1 = (Return (), s1)
    ∧ Transport.sent (connection s1) =
        [Request 0 (Initialize (fileUri sampleEnv "/test/workspace"));
         Notification Initialized].
Proof.
  split; [reflexivity|]. split; [reflexivity|].
  apply (reconnect_keeps_tracker sampleEnv "/test/workspace" sampleUri
           "import Foundation" 1 opened); reflexivity.
Defined.

(** [shutdown] on a listening connection writes the [shutdown] request
    first.  When the subprocess answers it, the [exit] notification
    follows, the connection is disposed and the child is killed.  When the
    subprocess answers with an error, or does not answer, [shutdown] ends
    there: no [exit] is written, the connection stays open and the child
    is not killed. *)
Theorem shutdown_sequence (env : Env) (s : Client) :
  listening s →
  let r := shutdown env s in
  let request := Request (Transport.nextId (connection s)) Shutdown in
  r.1 = shutdownReply env
  ∧ match shutdownReply env with
    | Return _ =>
        written s r.2 = [request; Notification Exit]
        ∧ Transport.state (connection r.2) = Transport.Disposed
        ∧ subprocessRunning r.2 = false
    | _ =>
        written s r.2 = [request]
        ∧ listening r.2
        ∧ process r.2 = process s
    end.
Proof.
  intros Hl. unfold shutdown, kill, bind, request, notify, ret.
  unfold Transport.sendRequest, Transport.sendNotification, Transport.guard.
  rewrite Hl. simpl.
  destruct (shutdownReply env) as [[]| |]; simpl;
    unfold Transport.deliver; simpl; rewrite ?lookup_insert_eq; simpl;
    rewrite ?Hl; simpl.
  - split; [done|]. split; [|split; [done|]].
    + apply written_snoc. simpl. by rewrite <- app_assoc.
    + unfold subprocessRunning. simpl. by destruct (process s).
  - split; [done|]. split; [by apply written_snoc|done].
  - split; [done|]. split; [by apply written_snoc|done].
Qed.

Lemma shutdown_sequence_witness :
  listening opened
  ∧ written opened (shutdown sampleEnv opened).2
    = [Request 1 Shutdown; Notification Exit]
  ∧ Transport.state (connection (shutdown sampleEnv opened).2) = Transport.Disposed
  ∧ subprocessRunning (shutdown sampleEnv opened).2 = false.
Proof.
  split; [reflexivity|].
  apply (proj2 (shutdown_sequence sampleEnv opened eq_refl)).
Defined.

(** [shutdown] cannot be repeated: on a connection that refuses traffic it
    fails with the connection's error before anything else happens, so the
    child is not signalled (again) and the client is unchanged. *)
Theorem shutdown_refused (env : Env) (s : Client) (e : Thrown) :
  Transport.guard (connection s) = Some e →
  shutdown env s = (Throw e, s).
Proof.
  intros Hg. unfold shutdown, bind. by rewrite (request_refused _ _ _ _ Hg).
Qed.

Lemma shutdown_refused_witness :
  Transport.guard (connection closed) = Some ConnectionClosedError
  ∧ shutdown sampleEnv closed = (Throw ConnectionClosedError, closed).
Proof.
  split; [reflexivity|].
  apply (shutdown_refused sampleEnv closed ConnectionClosedError). reflexivity.
Defined.

(** * Further properties of the tools *)

(** ** Traffic of a tool call *)

Lemma openFile_sync (uri text : string) (s : Client) :
  listening s →
  ∃ s1,
    openFile uri text s = (Return (), s1)
    ∧ listening s1
    ∧ Transport.nextId (connection s1) = Transport.nextId (connection s)
    ∧ Transport.sent (connection s1) =
        Transport.sent (connection s) ++ syncFrames uri text s
    ∧ ∃ v, openFiles s1 !! uri = Some {| version := v; content := text |}.
Proof.
  intros Hl. unfold openFile, syncFrames.
  destruct (openFiles s !! uri) as [[v c]|] eqn:Hlook.
  - case_bool_decide as Hc.
    + subst c. exists s. rewrite app_nil_r. eauto 10.
    + unfold updateFile, bind. rewrite notify_spec, (guard_listening _ Hl).
      eexists. split; [done|]. simpl. rewrite lookup_insert_eq. eauto 10.
  - unfold bind. rewrite notify_spec, (guard_listening _ Hl).
    eexists. split; [done|]. simpl. rewrite lookup_insert_eq. eauto 10.
Qed.

Lemma ensureOpen_sync (env : Env) (file uri text : string) (s : Client) :
  listening s →
  readFile env file = Return text →
  ∃ s1,
    ensureOpen env file uri s = (Return (), s1)
    ∧ listening s1
    ∧ Transport.nextId (connection s1) = Transport.nextId (connection s)
    ∧ Transport.sent (connection s1) =
        Transport.sent (connection s) ++ syncFrames uri text s
    ∧ ∃ v, openFiles s1 !! uri = Some {| version := v; content := text |}.
Proof.
  intros Hl Hread.
  destruct (openFile_sync uri text s Hl) as (s1 & Hopen & Hrest).
  exists s1. split; [|done].
  unfold ensureOpen, try_catch, bind, await. by rewrite Hread, Hopen.
Qed.

Lemma receive_keeps (ns : list Inbound) (s : Client) :
  connection (receive ns s) = connection s
  ∧ openFiles (receive ns s) = openFiles s.
Proof.
  revert s. unfold receive. induction ns as [|n ns IH]; intros s; [done|].
  simpl. destruct (IH (onNotification n s)) as [-> ->]. by destruct n.
Qed.

(** What a tool call writes, on a listening connection and for a readable
    file: first whatever brings the document up to date (nothing for the
    symbol search, which reads no file), then exactly one request, or none
    at all for the diagnostics tool; this holds whatever the subprocess
    answers.  Afterwards the document is tracked with the content that was
    read. *)
Theorem tool_call_traffic (env : Env) (call : ToolCall) (s : Client) :
  listening s →
  fileReadable env call →
  let s' := (executeTool env call s).2 in
  let asked :=
    match requestOf env call with
    | Some p => [Request (Transport.nextId (connection s)) p]
    | None => []
    end in
  match fileOf call with
  | Some file =>
      ∃ text,
        readFile env file = Return text
        ∧ written s s' = syncFrames (fileUri env file) text s ++ asked
        ∧ ∃ v, openFiles s' !! fileUri env file
               = Some {| version := v; content := text |}
  | None => written s s' = asked ∧ openFiles s' = openFiles s
  end.
Proof.
  intros Hl Hread.
  destruct call as [args|args|args|args|args]; simpl in *;
    unfold createHoverTool, createDefinitionTool, createReferencesTool,
      createSymbolsTool, createDiagnosticsTool,
      hover, definition, references, workspaceSymbols;
    rewrite !try_catch_ret; unfold bind, await, settle, ret.
  1-3,5: destruct Hread as [text Hread]; exists text; split; [done|];
    match goal with
    | |- context [ensureOpen _ ?f ?u ?st] =>
        destruct (ensureOpen_sync _ f u text st Hl Hread)
          as (s1 & -> & Hl1 & Hid & Hsent & v & Hfiles)
    end.
  1-3: match goal with
       | |- context [request ?q ?a ?st] =>
           destruct (request_listening q a st Hl1)
             as (s2 & -> & Hsent2 & _ & Hfiles2)
       end.
  - destruct (hoverReply _ _ _ _); simpl;
      (split; [apply written_snoc; rewrite Hsent2, Hsent, Hid;
               by rewrite <- app_assoc
              |exists v; by rewrite Hfiles2]).
  - destruct (definitionReply _ _ _ _) as [result| |]; simpl;
      try destruct (renderDefinition env result); simpl;
      (split; [apply written_snoc; rewrite Hsent2, Hsent, Hid;
               by rewrite <- app_assoc
              |exists v; by rewrite Hfiles2]).
  - destruct (referencesReply _ _ _ _ _) as [result| |]; simpl;
      try destruct (renderReferences env result); simpl;
      (split; [apply written_snoc; rewrite Hsent2, Hsent, Hid;
               by rewrite <- app_assoc
              |exists v; by rewrite Hfiles2]).
  - simpl. destruct (receive_keeps (arrivals env) s1) as [Hconn Htracker].
    split.
    + unfold written. rewrite Hconn, Hsent, app_nil_r.
      by rewrite drop_app_length.
    + exists v. by rewrite Htracker.
  - destruct (request_listening (WorkspaceSymbolParams (symbols_query args))
                (symbolsReply env (symbols_query args)) s Hl)
      as (s2 & -> & Hsent2 & _ & Hfiles2).
    destruct (symbolsReply _ _) as [result| |]; simpl;
      try destruct (renderSymbols env _ result); simpl;
      (split; [by apply written_snoc|done]).
Qed.

Lemma tool_call_traffic_witness :
  listening connected
  ∧ ∃ text,
      readFile sampleEnv sampleFile = Return text
      ∧ written connected
          (executeTool sampleEnv
             (SwiftHover {| hover_file := sampleFile; hover_line := 1;
                            hover_column := 5 |}) connected).2
        = syncFrames sampleUri text connected
          ++ [Request 1 (HoverParams sampleUri 0 4)]
      ∧ ∃ v, openFiles
               (executeTool sampleEnv
                  (SwiftHover {| hover_file := sampleFile; hover_line := 1;
                                 hover_column := 5 |}) connected).2
               !! sampleUri
             = Some {| version := v; content := text |}.
Proof.
  split; [reflexivity|].
  apply (tool_call_traffic sampleEnv
           (SwiftHover {| hover_file := sampleFile; hover_line := 1;
                          hover_column := 5 |}) connected).
  - reflexivity.
  - exists "import Foundation". reflexivity.
Defined.

(** ** Files that cannot be read *)

(** When the file of a call cannot be read, the call answers with the
    tool's prefix and the cause, and nothing has happened to the client:
    nothing was written and nothing is tracked.  Only the code [ENOENT] is
    turned into [File not found: <file>]; any other failure is reported
    with its own message. *)
Theorem unreadable_file_is_reported (env : Env) (call : ToolCall) (s : Client)
    (file : string) (e : Thrown) :
  fileOf call = Some file →
  readFile env file = Throw e →
  executeTool env call s =
    (Return (TextContent
       (failurePrefix call
        +:+ (if isENOENT e then "File not found: " +:+ file else errorMessage e))),
     s).
Proof.
  intros Hfile Hread.
  destruct call as [args|args|args|args|args]; simplify_eq/=;
    unfold createHoverTool, createDefinitionTool, createReferencesTool,
      createDiagnosticsTool, ensureOpen;
    rewrite try_catch_ret; unfold bind, try_catch, await, throw;
    rewrite Hread; by destruct (isENOENT e).
Qed.

Lemma unreadable_file_is_reported_witness :
  executeTool sampleEnv
    (SwiftDiagnostics {| diagnostics_file := "/nonexistent/file.swift" |}) opened
  = (Return (TextContent
       "Failed to get diagnostics: File not found: /nonexistent/file.swift"),
     opened).
Proof.
  apply (unreadable_file_is_reported sampleEnv
           (SwiftDiagnostics {| diagnostics_file := "/nonexistent/file.swift" |})
           opened "/nonexistent/file.swift"
           (ErrnoException "ENOENT" "ENOENT: no such file or directory"));
    reflexivity.
Defined.

(** ** Rendering of hover contents *)

Lemma createHoverTool_answered (env : Env) (args : HoverArgs) (s : Client)
    (result : option Lsp.Hover) :
  listening s →
  fileReadable env (SwiftHover args) →
  hoverReply env (fileUri env (hover_file args))
    (hover_line args - 1) (hover_column args - 1) = Return result →
  (createHoverTool env args s).1 = Return (TextContent (renderHover result)).
Proof.
  intros Hl [text Hread] Hreply. simpl in Hread.
  unfold createHoverTool, hover. rewrite try_catch_ret. unfold bind.
  destruct (ensureOpen_listening env _ (fileUri env (hover_file args)) text s
              Hl Hread) as (s1 & -> & _ & Hl1 & _).
  rewrite Hreply.
  match goal with
  | |- context [request ?q ?a ?st] =>
      by destruct (request_listening q a st Hl1) as (s2 & -> & _)
  end.
Qed.

(** How the hover tool renders the shapes of [contents].  A non-empty
    string and the non-empty value of a markup object are returned as they
    are; a list of fragments is rendered as its strings and values, in
    order, one per line.  A single [{ language, value }] object outside a list
    matches none of the cases of the source: its value is dropped and the
    answer is [No type information available]. *)
Theorem hover_contents_rendering (env : Env) (args : HoverArgs) (s : Client)
    (h : Lsp.Hover) (c : Lsp.HoverContents) :
  listening s →
  fileReadable env (SwiftHover args) →
  hoverReply env (fileUri env (hover_file args))
    (hover_line args - 1) (hover_column args - 1) = Return (Some h) →
  Lsp.contents h = Some c →
  let text := (createHoverTool env args s).1 in
  match c with
  | Lsp.Plain t => t ≠ "" → text = Return (TextContent t)
  | Lsp.Markup _ value => value ≠ "" → text = Return (TextContent value)
  | Lsp.Fragments items =>
      let lines := String.concat newline (map markedValue items) in
      lines ≠ "" → text = Return (TextContent lines)
  | Lsp.Code _ _ => text = Return (TextContent "No type information available")
  end.
Proof.
  intros Hl Hread Hreply Hc. simpl.
  rewrite (createHoverTool_answered env args s (Some h) Hl Hread Hreply).
  destruct h as [c' r]. simpl in Hc. subst c'.
  unfold renderHover, noHover, or_else.
  destruct c as [t|k v|l v|items]; simpl; try intros Hne;
    by rewrite ?bool_decide_eq_false_2 by done.
Qed.

Lemma hover_contents_rendering_witness :
  (createHoverTool sampleEnv
     {| hover_file := sampleFile; hover_line := 1; hover_column := 5 |}
     connected).1
  = Return (TextContent "let x: String").
Proof.
  apply (hover_contents_rendering sampleEnv
           {| hover_file := sampleFile; hover_line := 1; hover_column := 5 |}
           connected
           {| Lsp.contents := Some (Lsp.Plain "let x: String");
              Lsp.hoverRange := None |}
           (Lsp.Plain "let x: String")).
  - reflexivity.
  - exists "import Foundation". reflexivity.
  - reflexivity.
  - reflexivity.
  - discriminate.
Defined.

(** ** Rendering of definitions, kinds and diagnostics *)

(** The definition tool renders a single location the same way whether the
    reply is a bare location or an array with one element; two or more
    locations are listed one per line, in the order of the reply, each at
    its one-based start position; an empty array counts as nothing found. *)
Theorem definition_listing (env : Env) (args : DefinitionArgs) (s : Client)
    (d : Lsp.Definition_) (path : Lsp.Location → string) :
  listening s →
  fileReadable env (SwiftDefinition args) →
  definitionReply env (fileUri env (definition_file args))
    (definition_line args - 1) (definition_column args - 1) = Return (Some d) →
  (∀ l, l ∈ locationsOf d → fsPath env (Lsp.uri l) = Return (path l)) →
  (createDefinitionTool env args s).1 =
    Return (TextContent
      match locationsOf d with
      | [] => "No definition found at this position"
      | [l] =>
          "Definition found at: "
          +:+ renderedAt (path l) (Lsp.start (Lsp.range l))
      | ls =>
          "Multiple definitions found:" +:+ newline
          +:+ bullets (map (λ l, renderedAt (path l) (Lsp.start (Lsp.range l))) ls)
      end).
Proof.
  intros Hl [text Hread] Hreply Hpaths. simpl in Hread.
  unfold createDefinitionTool, definition. rewrite try_catch_ret. unfold bind.
  destruct (ensureOpen_listening env _ (fileUri env (definition_file args))
              text s Hl Hread) as (s1 & -> & _ & Hl1 & _).
  rewrite Hreply.
  match goal with
  | |- context [request ?q ?a ?st] =>
      destruct (request_listening q a st Hl1) as (s2 & -> & _)
  end.
  unfold await, renderDefinition.
  destruct (locationsOf d) as [|l0 ls] eqn:Hlocs; [done|].
  rewrite (mapC_returns _
             (λ l, renderedAt (path l) (Lsp.start (Lsp.range l)))).
  - by destruct ls.
  - intros l Hin. by apply formatLocation_one_based, Hpaths.
Qed.

Lemma definition_listing_witness :
  let env :=
    {| readFile := readFile sampleEnv; fileUri := fileUri sampleEnv;
       fsPath := fsPath sampleEnv; initializeReply := initializeReply sampleEnv;
       hoverReply := hoverReply sampleEnv;
       definitionReply := λ uri _ _,
         Return (Some (Lsp.One {| Lsp.uri := uri;
                                  Lsp.range := samplePosition 0 4 |}));
       referencesReply := referencesReply sampleEnv;
       symbolsReply := symbolsReply sampleEnv;
       shutdownReply := shutdownReply sampleEnv;
       arrivals := [] |} in
  (createDefinitionTool env
     {| definition_file := sampleFile; definition_line := 1;
        definition_column := 5 |} connected).1
  = Return (TextContent "Definition found at: /test/file.swift:1:5").
Proof.
  intros env.
  apply (definition_listing env
           {| definition_file := sampleFile; definition_line := 1;
              definition_column := 5 |} connected
           (Lsp.One {| Lsp.uri := sampleUri; Lsp.range := samplePosition 0 4 |})
           (λ _, "/test/file.swift")).
  - reflexivity.
  - exists "import Foundation". reflexivity.
  - reflexivity.
  - intros l Hin. apply list_elem_of_singleton in Hin. subst l. reflexivity.
Defined.

(** [symbolKindToString] and [severityToString] answer [Unknown] exactly
    for the numbers outside the enumerations ([SymbolKind] 1 to 26,
    [DiagnosticSeverity] 1 to 4); a diagnostic without severity, or with
    severity 0, is labelled like an error. *)
Theorem unknown_kinds_and_severities (n : Z) :
  (symbolKindToString n = "Unknown" ↔ ¬ (1 ≤ n ≤ 26))
  ∧ (severityToString n = "Unknown" ↔ ¬ (1 ≤ n ≤ 4))
  ∧ (∀ d, Lsp.severity d = None ∨ Lsp.severity d = Some 0 →
          severityToString (severityOrError d) = "Error").
Proof.
  split; [|split].
  - split.
    + intros Hunknown Hrange. destruct n as [|p|p]; [lia| |lia].
      do 6 (try destruct p as [p|p|]); try done; lia.
    + intros Hrange. destruct n as [|p|p]; [done| |done].
      do 6 (try destruct p as [p|p|]); try done; lia.
  - split.
    + intros Hunknown Hrange. destruct n as [|p|p]; [lia| |lia].
      do 4 (try destruct p as [p|p|]); try done; lia.
    + intros Hrange. destruct n as [|p|p]; [done| |done].
      do 4 (try destruct p as [p|p|]); try done; lia.
  - intros d [Hsev|Hsev]; unfold severityOrError; by rewrite Hsev.
Qed.

Lemma string_app_assoc (a b c : string) : (a +:+ b) +:+ c = a +:+ b +:+ c.
Proof.
  induction a as [|x a IH]; [done|].
  change ((String x a +:+ b) +:+ c) with (String x ((a +:+ b) +:+ c)).
  by rewrite IH.
Qed.

Lemma string_app_nonempty_r (a b : string) : b ≠ "" → a +:+ b ≠ "".
Proof. by destruct a. Qed.

Lemma diagnostics_partition (ds : list Lsp.Diagnostic) :
  (length (filter (λ d, hasSeverity 1 d = true) ds)
   + length (filter (λ d, hasSeverity 2 d = true) ds)
   + length (filter (λ d, hasSeverity 1 d = false ∧ hasSeverity 2 d = false) ds)
   = length ds)%nat.
Proof.
  induction ds as [|d ds IH]; [done|].
  rewrite !filter_cons. repeat case_decide; simpl; try lia.
  all: exfalso; unfold hasSeverity in *;
    destruct (decide (Lsp.severity d = Some 1)) as [Hone|Hone],
      (decide (Lsp.severity d = Some 2)) as [Htwo|Htwo];
    rewrite ?(bool_decide_eq_true_2 _ Hone), ?(bool_decide_eq_true_2 _ Htwo),
      ?(bool_decide_eq_false_2 _ Hone), ?(bool_decide_eq_false_2 _ Htwo) in *;
    intuition congruence.
Qed.

(** The summary of the diagnostics tool splits the diagnostics into three
    groups that cover all of them: severity 1, severity 2, and everything
    else (the other severities and the diagnostics without one).  The
    groups that are not empty are named with their sizes, separated by
    commas, so the summary of a non-empty list is never empty. *)
Theorem diagnostics_summary_counts (ds : list Lsp.Diagnostic) :
  ∃ errors warnings others : nat,
    (errors + warnings + others = length ds)%nat
    ∧ errors = length (filter (λ d, Lsp.severity d = Some 1) ds)
    ∧ warnings = length (filter (λ d, Lsp.severity d = Some 2) ds)
    ∧ diagnosticsSummary ds = summaryOf errors warnings others
    ∧ (ds ≠ [] → diagnosticsSummary ds ≠ "").
Proof.
  pose proof (diagnostics_partition ds) as Hsum.
  set (E := length (filter (λ d, hasSeverity 1 d = true) ds)) in *.
  set (W := length (filter (λ d, hasSeverity 2 d = true) ds)) in *.
  set (O := length (filter (λ d, hasSeverity 1 d = false
                                 ∧ hasSeverity 2 d = false) ds)) in *.
  assert (diagnosticsSummary ds = summaryOf E W O) as Htext.
  { unfold diagnosticsSummary, summaryOf. fold E W O. cbv zeta.
    set (a := pretty E +:+ " error" +:+ plural E).
    set (b := pretty W +:+ " warning" +:+ plural W).
    set (c := pretty O +:+ " other" +:+ plural O).
    assert (a ≠ "") as Ha by (by apply string_app_nonempty_r).
    assert (b ≠ "") as Hb by (by apply string_app_nonempty_r).
    assert (c ≠ "") as Hc by (by apply string_app_nonempty_r).
    change ("" +:+ a) with a.
    destruct (bool_decide (0 < E)%nat), (bool_decide (0 < W)%nat),
      (bool_decide (0 < O)%nat); simpl;
      change ("" +:+ b) with b; change ("" +:+ c) with c;
      repeat case_bool_decide; try done;
      try match goal with
          | H : _ +:+ _ = "" |- _ => by apply string_app_nonempty_r in H
          end;
      rewrite ?string_app_assoc; done. }
  exists E, W, O. split; [done|].
  split; [subst E; f_equal; apply list_filter_iff; intros d;
          unfold hasSeverity; by rewrite bool_decide_eq_true|].
  split; [subst W; f_equal; apply list_filter_iff; intros d;
          unfold hasSeverity; by rewrite bool_decide_eq_true|].
  split; [done|].
  intros Hne. rewrite Htext. unfold summaryOf.
  assert (0 < E + W + O)%nat as Hpos
    by (rewrite Hsum; destruct ds; [done|simpl; lia]).
  destruct (decide (0 < E)%nat); [|destruct (decide (0 < W)%nat)].
  - rewrite (bool_decide_eq_true_2 (0 < E)%nat) by done.
    repeat case_bool_decide; simpl; by destruct (pretty E).
  - rewrite (bool_decide_eq_false_2 (0 < E)%nat) by done.
    rewrite (bool_decide_eq_true_2 (0 < W)%nat) by done.
    repeat case_bool_decide; simpl; by destruct (pretty W).
  - rewrite (bool_decide_eq_false_2 (0 < E)%nat) by done.
    rewrite (bool_decide_eq_false_2 (0 < W)%nat) by done.
    rewrite (bool_decide_eq_true_2 (0 < O)%nat) by lia.
    simpl. apply string_app_nonempty_r. done.
Qed.

Lemma diagnostics_summary_counts_witness :
  ∃ errors warnings others : nat,
    (errors + warnings + others = 3)%nat
    ∧ diagnosticsSummary
        [sampleDiagnostic;
         {| Lsp.diagRange := samplePosition 0 0; Lsp.severity := None;
            Lsp.message := "m"; Lsp.source := None |};
         sampleDiagnostic]
      = summaryOf errors warnings others
    ∧ summaryOf errors warnings others = "2 errors, 1 other".
Proof.
  destruct (diagnostics_summary_counts
              [sampleDiagnostic;
               {| Lsp.diagRange := samplePosition 0 0; Lsp.severity := None;
                  Lsp.message := "m"; Lsp.source := None |};
               sampleDiagnostic])
    as (errors & warnings & others & Hsum & -> & -> & Htext & _).
  eexists _, _, others. split; [exact Hsum|]. split; [exact Htext|].
  rewrite <- Htext. vm_compute. reflexivity.
Defined.

(** A diagnostic that carries no severity is labelled [Error] in its line,
    because the label falls back to the error severity, but the summary
    compares the severity itself and counts it among the others. *)
Theorem missing_severity_is_labelled_error (d : Lsp.Diagnostic) :
  Lsp.severity d = None →
  renderDiagnostics [d] =
    "Found 1 diagnostic (1 other):" +:+ newline +:+ "- " +:+ formatDiagnostic d
  ∧ ∃ rest, formatDiagnostic d = "Error at " +:+ rest.
Proof.
  intros Hsev. destruct d as [range sev message source]. simpl in Hsev.
  subst sev. split; [reflexivity|].
  unfold formatDiagnostic, severityOrError. simpl. by eexists.
Qed.

Lemma missing_severity_is_labelled_error_witness :
  renderDiagnostics
    [ {| Lsp.diagRange := samplePosition 0 0; Lsp.severity := None;
         Lsp.message := "unused variable"; Lsp.source := None |} ]
  = "Found 1 diagnostic (1 other):" +:+ newline
    +:+ "- Error at 1:1: unused variable".
Proof.
  rewrite (proj1 (missing_severity_is_labelled_error
             {| Lsp.diagRange := samplePosition 0 0; Lsp.severity := None;
                Lsp.message := "unused variable"; Lsp.source := None |}
             eq_refl)).
  vm_compute. reflexivity.
Defined.

(** * Further properties of the dispatcher *)

(** ** Which arguments are accepted *)

Lemma flat_map_nil {A B} (f : A → list B) (xs : list A) :
  flat_map f xs = [] ↔ ∀ x, x ∈ xs → f x = [].
Proof.
  induction xs as [|x xs IH]; simpl.
  - split; [|done]. intros _ x Hin. by apply not_elem_of_nil in Hin.
  - split.
    + intros [Hx Hxs]%app_eq_nil y [->|Hin]%elem_of_cons; [done|].
      by apply IH.
    + intros Hall. rewrite (Hall x) by apply list_elem_of_here. simpl.
      apply IH. intros y Hin. apply Hall. by apply list_elem_of_further.
Qed.

(** A closed schema admits a property exactly when it declares it. *)
Lemma additional_nil (schema : InputSchema) (args : gmap string json) :
  additionalProperties schema = Some false →
  Ajv.additional schema args = [] ↔
  ∀ key v, args !! key = Some v → key ∈ (properties schema).*1.
Proof.
  intros Hclosed. unfold Ajv.additional. rewrite Hclosed, flat_map_nil. split.
  - intros Hall key v Hlook.
    specialize (Hall (key, v)). rewrite elem_of_map_to_list in Hall.
    specialize (Hall Hlook). unfold Ajv.declared in Hall. simpl in Hall.
    by case_bool_decide.
  - intros Hall [key v] Hin%elem_of_map_to_list. simpl.
    unfold Ajv.declared. by rewrite bool_decide_eq_true_2 by eauto.
Qed.

Lemma validateToolArgs_None (name : string) (args : gmap string json) :
  validateToolArgs name args = None ↔
  ∃ public,
    toolSchema name = Some public
    ∧ Ajv.missingRequired (validationSchema public) args = []
    ∧ (∀ key v, args !! key = Some v → key ∈ (properties public).*1)
    ∧ Ajv.invalidProperties (validationSchema public) args = [].
Proof.
  unfold validateToolArgs, toolSchema.
  destruct (List.find _ TOOL_DEFINITIONS) as [toolDef|]; simpl.
  - unfold Ajv.errors, Ajv.violations. split.
    + intros Hnone. exists (inputSchema toolDef). split; [done|].
      destruct (_ ++ _) as [|err errs] eqn:Happ; [|done].
      apply app_eq_nil in Happ as [Hreq Happ].
      apply app_eq_nil in Happ as [Hadd Hprops].
      split; [done|]. split; [|done].
      pose proof (proj1 (additional_nil
                           (validationSchema (inputSchema toolDef)) args
                           eq_refl) Hadd) as Hdecl.
      by rewrite validationSchema_names in Hdecl.
    + intros (public & [= <-] & Hreq & Hadd & Hprops).
      rewrite Hreq, Hprops.
      rewrite (proj2 (additional_nil (validationSchema (inputSchema toolDef))
                        args eq_refl)); [done|].
      by rewrite validationSchema_names.
  - split; [done|]. by intros (public & [=] & _).
Qed.

Ltac split_nil :=
  repeat match goal with
         | H : _ ++ _ = [] |- _ => apply app_eq_nil in H as [? ?]
         end.

Ltac case_lookups :=
  repeat match goal with
         | H : context [match lookup ?k ?m with _ => _ end] |- _ =>
             let v := fresh "v" in
             destruct (lookup k m) as [v|] eqn:?; [destruct v|];
             simplify_eq/=; split_nil; simplify_eq/=
         end.

Ltac case_bounds :=
  repeat match goal with
         | H : Ajv.checkValue _ _ _ = [] |- _ =>
             unfold Ajv.checkValue in H; simpl in H;
             case_bool_decide; simplify_eq/=
         end.

Ltac lookup_chain :=
  repeat first
    [ rewrite lookup_insert_eq
    | rewrite lookup_insert_ne by done
    | rewrite lookup_singleton_eq
    | rewrite lookup_singleton_ne by done
    | rewrite lookup_empty ].

Ltac in_list :=
  solve [repeat first [apply list_elem_of_here | apply list_elem_of_further]].

Ltac same_entries Hdecl :=
  apply map_eq; intros k;
  match goal with
  | |- ?m !! k = _ =>
      destruct (m !! k) as [v|] eqn:Hk;
      [ apply Hdecl in Hk as Hin; simpl in Hin;
        repeat (apply elem_of_cons in Hin as [->|Hin]);
        [ simplify_map_eq; try done .. | by apply elem_of_nil in Hin ]
      | repeat match goal with
               | H : m !! ?key = Some _ |- _ =>
                   destruct (decide (k = key)) as [->|?]; [congruence|];
                   revert H
               end;
        intros; by simplify_map_eq ]
  end.

Lemma validated_is_encoded (name : string) (args : gmap string json) :
  validateToolArgs name args = None →
  ∃ call, toolName call = name ∧ args = encodeCall call ∧ inBounds call.
Proof.
  rewrite validateToolArgs_None.
  intros (public & Hschema & Hreq & Hdecl & Hprops).
  unfold toolSchema in Hschema. simpl in Hschema.
  repeat case_bool_decide; simplify_eq/=;
    unfold Ajv.missingRequired in Hreq;
    unfold Ajv.invalidProperties in Hprops; simpl in Hreq, Hprops;
    case_lookups; case_bounds.
  + match goal with
    | Hf : args !! "file" = Some (JString ?f),
      Hl : args !! "line" = Some (JNumber ?l),
      Hc : args !! "column" = Some (JNumber ?c) |- _ =>
        exists (SwiftHover {| hover_file := f; hover_line := l;
                              hover_column := c |})
    end.
    split; [done|]. split; [|simpl; lia]. simpl. same_entries Hdecl.
  + match goal with
    | Hf : args !! "file" = Some (JString ?f),
      Hl : args !! "line" = Some (JNumber ?l),
      Hc : args !! "column" = Some (JNumber ?c) |- _ =>
        exists (SwiftDefinition {| definition_file := f; definition_line := l;
                                   definition_column := c |})
    end.
    split; [done|]. split; [|simpl; lia]. simpl. same_entries Hdecl.
  + match goal with
    | Hf : args !! "file" = Some (JString ?f),
      Hl : args !! "line" = Some (JNumber ?l),
      Hc : args !! "column" = Some (JNumber ?c),
      Hi : args !! "includeDeclaration" = Some (JBool ?b) |- _ =>
        exists (SwiftReferences
                  {| references_file := f; references_line := l;
                     references_column := c;
                     references_includeDeclaration := Some b |})
    end.
    split; [done|]. split; [|simpl; lia]. simpl. same_entries Hdecl.
  + match goal with
    | Hf : args !! "file" = Some (JString ?f),
      Hl : args !! "line" = Some (JNumber ?l),
      Hc : args !! "column" = Some (JNumber ?c) |- _ =>
        exists (SwiftReferences
                  {| references_file := f; references_line := l;
                     references_column := c;
                     references_includeDeclaration := None |})
    end.
    split; [done|]. split; [|simpl; lia]. simpl. same_entries Hdecl.
  + match goal with
    | Hq : args !! "query" = Some (JString ?q) |- _ =>
        exists (SwiftSymbols {| symbols_query := q |})
    end.
    split; [done|]. split.
    * simpl. same_entries Hdecl.
    * simpl. intros ->. simpl in *. lia.
  + match goal with
    | Hf : args !! "file" = Some (JString ?f) |- _ =>
        exists (SwiftDiagnostics {| diagnostics_file := f |})
    end.
    split; [done|]. split; [|done]. simpl. same_entries Hdecl.
Qed.

Lemma encodeCall_valid (call : ToolCall) :
  inBounds call → validateToolArgs (toolName call) (encodeCall call) = None.
Proof.
  intros Hbounds. rewrite validateToolArgs_None.
  destruct call as [[f l c]|[f l c]|[f l c [b|]]|[q]|[f]]; simpl in *;
    (eexists; split; [reflexivity|]);
    (split; [unfold Ajv.missingRequired; simpl; lookup_chain; done|]);
    (split;
     [ intros key v Hlook;
       repeat (apply lookup_insert_Some in Hlook as [[<- _]|[_ Hlook]];
               [in_list|]);
       try (apply lookup_singleton_Some in Hlook as [<- _]; in_list);
       by rewrite lookup_empty in Hlook
     | unfold Ajv.invalidProperties; simpl; lookup_chain;
       unfold Ajv.checkValue; simpl;
       rewrite ?bool_decide_eq_false_2 by lia; try done ]).
  destruct q; [done|]. simpl. by rewrite ?bool_decide_eq_false_2 by lia.
Qed.

(** Validation accepts exactly the argument objects that carry a call of
    one of the five tools within its bounds: the declared properties with
    their types and nothing else, lines and columns from 1, a non-empty
    query; [includeDeclaration] may be left out. *)
Theorem accepted_arguments (name : string) (args : gmap string json) :
  validateToolArgs name args = None ↔
  ∃ call, toolName call = name ∧ args = encodeCall call ∧ inBounds call.
Proof.
  split; [apply validated_is_encoded|].
  intros (call & <- & -> & Hbounds). by apply encodeCall_valid.
Qed.

(** ** Every call is either run or refused *)


Lemma callTool_refused (env : Env) (name : string) (args : gmap string json)
    (msg : string) (s : Client) :
  validateToolArgs name args = Some msg →
  callTool env name (Some args) s =
    (Return (TextContent ("Validation error: " +:+ msg)), s).
Proof.
  intros Hval. unfold callTool. rewrite try_catch_ret, Hval.
  apply validateToolArgs_message_nonempty in Hval.
  by rewrite bool_decide_eq_false_2.
Qed.



(** A name that is not one of the five tools is answered with
    [Validation error: Unknown tool: <name>] whatever the arguments are,
    and a request without an arguments object with
    [Error: No arguments provided] whatever the name is; neither touches
    the client. *)
Theorem unknown_tool_or_no_arguments (env : Env) (name : string)
    (args : gmap string json) (s : Client) :
  callTool env name None s =
    (Return (TextContent "Error: No arguments provided"), s)
  ∧ ((∀ call, toolName call ≠ name) →
     callTool env name (Some args) s =
       (Return (TextContent ("Validation error: Unknown tool: " +:+ name)), s)).
Proof.
  split; [done|]. intros Hname. apply callTool_refused.
  unfold validateToolArgs. simpl.
  repeat case_bool_decide; simplify_eq/=; try done.
  - by destruct (Hname (SwiftHover {| hover_file := ""; hover_line := 0;
                                      hover_column := 0 |})).
  - by destruct (Hname (SwiftDefinition {| definition_file := "";
                          definition_line := 0; definition_column := 0 |})).
  - by destruct (Hname (SwiftReferences {| references_file := "";
                          references_line := 0; references_column := 0;
                          references_includeDeclaration := None |})).
  - by destruct (Hname (SwiftSymbols {| symbols_query := "" |})).
  - by destruct (Hname (SwiftDiagnostics {| diagnostics_file := "" |})).
Qed.

Lemma unknown_tool_or_no_arguments_witness :
  callTool sampleEnv "swift-rename" (Some ∅) connected =
    (Return (TextContent "Validation error: Unknown tool: swift-rename"),
     connected).
Proof.
  apply (unknown_tool_or_no_arguments sampleEnv "swift-rename" ∅ connected).
  by intros [].
Defined.

(** The table of tool definitions and the [switch] of the handler name
    the same tools: a name has a definition exactly when the switch has a
    case for it, that is, when dispatching it does not end in
    [Unknown tool]. *)
Theorem definitions_match_switch (env : Env) (name : string)
    (args : gmap string json) (s : Client) :
  is_Some (toolSchema name) ↔
  dispatch env name args s ≠ (Throw (Error ("Unknown tool: " +:+ name)), s).
Proof.
  unfold toolSchema, dispatch. simpl.
  repeat case_bool_decide; simplify_eq/=.
  6: { split; [by intros [? [=]]|]. by intros []. }
  all: split; [intros _|by eexists].
  all: unfold execute;
    match goal with
    | |- context [match ?d with _ => _ end] => destruct d as [a|]
    end; [|by intros [=]].
  all: intros Heq.
  - by eapply (executeTool_never_throws env (SwiftHover a) s); simpl; rewrite Heq.
  - by eapply (executeTool_never_throws env (SwiftDefinition a) s); simpl; rewrite Heq.
  - by eapply (executeTool_never_throws env (SwiftReferences a) s); simpl; rewrite Heq.
  - by eapply (executeTool_never_throws env (SwiftSymbols a) s); simpl; rewrite Heq.
  - by eapply (executeTool_never_throws env (SwiftDiagnostics a) s); simpl; rewrite Heq.
Qed.

(** ** The listing of symbols *)

Lemma formatSymbol_line (env : Env) (symbol : Lsp.SymbolInformation)
    (path : string) :
  fsPath env (Lsp.uri (Lsp.location symbol)) = Return path →
  formatSymbol env symbol =
    Return (Lsp.name symbol +:+ " ("
            +:+ symbolKindToString (Lsp.kind symbol) +:+ ")"
            +:+ inContainer (Lsp.containerName symbol)
            +:+ " - " +:+ path +:+ ":"
            +:+ pretty (Lsp.line (Lsp.start (Lsp.range (Lsp.location symbol)))
                        + 1)).
Proof.
  intros Hpath. unfold formatSymbol, inContainer. rewrite Hpath. f_equal.
  destruct (Lsp.containerName symbol) as [container|];
    [case_bool_decide|]; by rewrite !string_app_assoc.
Qed.

(** The symbol search asks for the query as it is given, without reading
    or opening any file, and lists what comes back in the order of the
    reply: a heading with the number of symbols and the quoted query, then
    one line for each symbol with its name, its kind, its container unless
    that is missing or empty, its path and its one-based start line. *)
Theorem symbols_listing (env : Env) (args : SymbolsArgs) (s : Client)
    (found : list Lsp.SymbolInformation)
    (path : Lsp.SymbolInformation → string) :
  listening s →
  symbolsReply env (symbols_query args) = Return (Some found) →
  found ≠ [] →
  (∀ symbol, symbol ∈ found →
     fsPath env (Lsp.uri (Lsp.location symbol)) = Return (path symbol)) →
  let r := createSymbolsTool env args s in
  r.1 =
    Return (TextContent
      ("Found " +:+ pretty (length found) +:+ " symbol"
       +:+ plural (length found) +:+ " matching "
       +:+ dquote +:+ symbols_query args +:+ dquote +:+ ":" +:+ newline
       +:+ bullets
             (map (λ symbol,
                     Lsp.name symbol +:+ " ("
                     +:+ symbolKindToString (Lsp.kind symbol) +:+ ")"
                     +:+ inContainer (Lsp.containerName symbol)
                     +:+ " - " +:+ path symbol +:+ ":"
                     +:+ pretty (Lsp.line (Lsp.start
                                   (Lsp.range (Lsp.location symbol))) + 1))
                found)))
  ∧ written s r.2 =
      [Request (Transport.nextId (connection s))
         (WorkspaceSymbolParams (symbols_query args))]
  ∧ openFiles r.2 = openFiles s.
Proof.
  intros Hl Hreply Hne Hpaths r. subst r.
  unfold createSymbolsTool, workspaceSymbols.
  rewrite try_catch_ret. unfold bind. rewrite Hreply.
  match goal with
  | |- context [request ?q ?a ?st] =>
      destruct (request_listening q a st Hl) as (s1 & -> & Hsent & _ & Hopen)
  end.
  unfold await, renderSymbols.
  rewrite (mapC_returns _
             (λ symbol,
                Lsp.name symbol +:+ " ("
                +:+ symbolKindToString (Lsp.kind symbol) +:+ ")"
                +:+ inContainer (Lsp.containerName symbol)
                +:+ " - " +:+ path symbol +:+ ":"
                +:+ pretty (Lsp.line (Lsp.start
                              (Lsp.range (Lsp.location symbol))) + 1)))
    by (intros symbol Hin; by apply formatSymbol_line, Hpaths).
  destruct found as [|symbol found]; [done|]. simpl.
  rewrite !length_map. repeat split; [|done].
  unfold written. rewrite Hsent. by rewrite drop_app_length.
Qed.

Lemma symbols_listing_witness :
  let found :=
    [ {| Lsp.name := "TestClass"; Lsp.kind := 5;
         Lsp.location :=
           {| Lsp.uri := sampleUri; Lsp.range := samplePosition 2 0 |};
         Lsp.containerName := Some "" |};
      {| Lsp.name := "run"; Lsp.kind := 6;
         Lsp.location :=
           {| Lsp.uri := sampleUri; Lsp.range := samplePosition 4 2 |};
         Lsp.containerName := Some "TestClass" |} ] in
  let env :=
    {| readFile := readFile sampleEnv; fileUri := fileUri sampleEnv;
       fsPath := fsPath sampleEnv; initializeReply := initializeReply sampleEnv;
       hoverReply := hoverReply sampleEnv;
       definitionReply := definitionReply sampleEnv;
       referencesReply := referencesReply sampleEnv;
       symbolsReply := λ _, Return (Some found);
       shutdownReply := shutdownReply sampleEnv;
       arrivals := [] |} in
  (createSymbolsTool env {| symbols_query := "Test" |} connected).1
  = Return (TextContent
      ("Found 2 symbols matching " +:+ dquote +:+ "Test" +:+ dquote +:+ ":"
       +:+ newline +:+ "- TestClass (Class) - /test/file.swift:3"
       +:+ newline +:+ "- run (Method) in TestClass - /test/file.swift:5")).
Proof.
  intros found env.
  assert (∀ symbol, symbol ∈ found →
            fsPath env (Lsp.uri (Lsp.location symbol)) =
              Return "/test/file.swift") as Hpaths.
  { intros symbol Hin. apply elem_of_cons in Hin as [->|Hin]; [reflexivity|].
    apply list_elem_of_singleton in Hin as ->. reflexivity. }
  exact (proj1 (symbols_listing env {| symbols_query := "Test" |} connected
                  found (λ _, "/test/file.swift")
                  eq_refl eq_refl (λ H, nil_cons (eq_sym H)) Hpaths)).
Defined.
